(** * External JWT authentication middleware (packages/cli/src/middlewares/externalJWTAuth.ts)

  A shallow embedding of [setupExternalJWTAuth]: the tenant predicate
  [isTenantAllowed], the token extraction and prefix stripping of the
  request handler, the key-lookup callback [getKey] and the verification
  callback, together with the two libraries the handler talks to
  (jsonwebtoken and jwks-rsa), which are taken as interfaces.

  JavaScript strings are modelled as [string]: a sequence of 8-bit code
  units (Node decodes header bytes as Latin-1, one code unit per byte). *)

From Stdlib Require Import String Ascii List Bool Arith Lia DecimalString.
From stdpp Require Import base strings list gmap.

Set Warnings "-register-all".
Import ListNotations.

(** ** JavaScript strings *)

Module JsString.

(** [s === t] on two string primitives. *)
Definition eqb (s t : string) : bool := String.eqb s t.

(** Truthiness of a string: every string but the empty one. *)
Definition truthy (s : string) : bool := negb (String.eqb s "").

(** [s.startsWith(p)] *)
Definition startsWith (s p : string) : bool := String.prefix p s.

(** The part of [s] after its first [n] code units. *)
Fixpoint drop (n : nat) (s : string) : string :=
  match n, s with
  | O, _ => s
  | S n', String _ s' => drop n' s'
  | S _, EmptyString => EmptyString
  end.

(** [s.replace(pat, '')] with a string pattern: the first occurrence of
    [pat], searched from the left, is removed; no occurrence, no change. *)
Fixpoint replace_empty (s pat : string) : string :=
  if String.prefix pat s then drop (String.length pat) s
  else match s with
       | EmptyString => EmptyString
       | String c s' => String c (replace_empty s' pat)
       end.

(** White space and line terminators of ECMAScript among the code units
    0..255: TAB, LF, VT, FF, CR, SP and NBSP. *)
Definition isWhiteSpace (c : ascii) : bool :=
  let n := nat_of_ascii c in
  (Nat.leb 9 n && Nat.leb n 13) || Nat.eqb n 32 || Nat.eqb n 160.

(** [s.trimStart()] *)
Fixpoint trimStart (s : string) : string :=
  match s with
  | EmptyString => EmptyString
  | String c s' => if isWhiteSpace c then trimStart s' else s
  end.

(** A string all of whose code units are white space (the empty string
    included). *)
Fixpoint allWhiteSpace (s : string) : bool :=
  match s with
  | EmptyString => true
  | String c s' => isWhiteSpace c && allWhiteSpace s'
  end.

(** The canonical numeric string of an array index: "0", "1", ... *)
Definition ofIndex (i : nat) : string := NilZero.string_of_uint (Nat.to_uint i).

End JsString.

(** ** JavaScript values, as far as a decoded token can hold them *)

Inductive JsValue : Type :=
| JUndefined
| JNull
| JBool (b : bool)
| JNum (literal : string)
| JStr (s : string)
| JArr (elems : list JsValue)
| JObj (props : list (string * JsValue)).

(** What JavaScript code can throw here: the value of a [throw] statement
  of the source, or the TypeError of a built-in. *)
Inductive Exn : Type :=
| ThrownByCode
| TypeError.

(** [Object.entries(v)]: the own enumerable string-keyed properties of [v],
  in enumeration order. [null] and [undefined] cannot be converted to an
  object (TypeError); numbers and booleans have no own properties; a
  string has one property per code unit and an array one per element, both
  named by the index. The properties of a [JObj] are held in enumeration
  order. *)
Fixpoint indexed {A B : Type} (f : nat -> A -> B) (i : nat) (l : list A) : list B :=
match l with
| [] => []
| x :: l' => f i x :: indexed f (S i) l'
end.

Definition Object_entries (v : JsValue) : Exn + list (string * JsValue) :=
match v with
| JUndefined | JNull => inl TypeError
| JBool _ | JNum _ => inr []
| JStr s =>
    inr (indexed (fun i c => (JsString.ofIndex i, JStr (String c EmptyString)))
                 0 (list_ascii_of_string s))
| JArr elems => inr (indexed (fun i x => (JsString.ofIndex i, x)) 0 elems)
| JObj props => inr props
end.

(** [v === s] for a string primitive [s]: no conversion, so [v] has to be
  that very string. *)
Definition strictEqStr (v : JsValue) (s : string) : bool :=
match v with
| JStr t => JsString.eqb t s
| _ => false
end.

(** ** Configuration: the values read with [config.getEnv] *)

Record Config : Type := mkConfig {
jwtAuthHeader : string;        (* security.jwtAuth.jwtHeader *)
jwtAuthCookie : string;        (* security.jwtAuth.jwtCookie *)
jwksUri : string;              (* security.jwtAuth.jwksUri *)
jwtHeaderValuePrefix : string; (* security.jwtAuth.jwtHeaderValuePrefix *)
jwtIssuer : string;            (* security.jwtAuth.jwtIssuer *)
jwtNamespace : string;         (* security.jwtAuth.jwtNamespace *)
jwtAllowedTenantKey : string;  (* security.jwtAuth.jwtAllowedTenantKey *)
jwtAllowedTenant : string      (* security.jwtAuth.jwtAllowedTenant *)
}.

(** ** isTenantAllowed *)

Section TenantCheck.

Variable cfg : Config.

(** The inner loop: [for (const [kn, kv] of Object.entries(v))], which
    returns true from the function at the first matching entry. *)
Fixpoint tenantLoop (entries : list (string * JsValue)) : bool :=
  match entries with
  | [] => false
  | (kn, kv) :: rest =>
      if JsString.eqb kn (jwtAllowedTenantKey cfg) && strictEqStr kv (jwtAllowedTenant cfg)
      then true
      else tenantLoop rest
  end.

(** The outer loop: [for (const [k, v] of Object.entries(decodedToken))]. *)
Fixpoint namespaceLoop (entries : list (string * JsValue)) : Exn + bool :=
  match entries with
  | [] => inr false
  | (k, v) :: rest =>
      if JsString.eqb k (jwtNamespace cfg) then
        match Object_entries v with
        | inl e => inl e
        | inr inner => if tenantLoop inner then inr true else namespaceLoop rest
        end
      else namespaceLoop rest
  end.

Definition isTenantAllowed (decodedToken : JsValue) : Exn + bool :=
  if JsString.eqb (jwtNamespace cfg) ""
     || JsString.eqb (jwtAllowedTenantKey cfg) ""
     || JsString.eqb (jwtAllowedTenant cfg) ""
  then inr true
  else
    match Object_entries decodedToken with
    | inl e => inl e
    | inr entries => namespaceLoop entries
    end.

End TenantCheck.

(** ** Effects: calls to the collaborators, the store of JWKS clients, exceptions *)

Record JwtHeader : Type := mkHeader {
  kid : option string            (* header.kid, a string or undefined *)
}.

Record VerifyOptions : Type := mkOptions {
  issuer : option string;
  ignoreExpiration : bool
}.

Record SigningKey : Type := mkKey {
  keyId : string;
  publicKey : string
}.

(** [key.getPublicKey()] *)
Definition getPublicKey (key : SigningKey) : string := publicKey key.

(** A JWKS client object: the URI it was built for and its cache of
    signing keys by kid. *)
Record JwksClient : Type := mkClient {
  clientUri : string;
  clientCache : gmap string SigningKey
}.

(** The client objects the process has created so far; a client is known by
    its position. *)
Definition Store : Type := list JwksClient.

(** The calls the handler and the libraries make that are visible from
    outside, in the order they happen. *)
Inductive Event : Type :=
| EvNext                                              (* next() *)
| EvReject (message : string)                         (* jwtAuthAuthorizationError(res, message) *)
| EvJwks (uri : string)                               (* jwks({ cache: true, jwksUri }) *)
| EvVerify (token : string) (options : VerifyOptions) (* jwt.verify(token, getKey, options, cb) *)
| EvGetSigningKey (client : nat) (kid : string)       (* jwkClient.getSigningKey(kid, cb) *)
| EvFetch (uri : string) (kid : string)               (* the client downloads the key set *)
| EvKeyCallback (error : option string) (key : option string). (* callbackFn(error, key) *)

(** The handler is written with callbacks; here each callback is run where
    the library calls it, so a run lists the calls in the order the program
    makes them, and an exception thrown inside a callback ends the run like
    one thrown by the handler itself. *)
Record Run (A : Type) : Type := mkRun {
  events : list Event;
  store : Store;
  result : Exn + A
}.
Arguments mkRun {A} _ _ _.
Arguments events {A} _.
Arguments store {A} _.
Arguments result {A} _.

Definition Js (A : Type) : Type := Store -> Run A.

Definition ret {A : Type} (a : A) : Js A :=
  fun st => mkRun [] st (inr a).

Definition throw {A : Type} (e : Exn) : Js A :=
  fun st => mkRun [] st (inl e).

Definition bind {A B : Type} (m : Js A) (k : A -> Js B) : Js B :=
  fun st =>
    let r := m st in
    match result r with
    | inl e => mkRun (events r) (store r) (inl e)
    | inr a => let r' := k a (store r) in
               mkRun (events r ++ events r') (store r') (result r')
    end.

Definition emit (e : Event) : Js unit :=
  fun st => mkRun [e] st (inr tt).

Definition getStore : Js Store :=
  fun st => mkRun [] st (inr st).

Definition putStore (st' : Store) : Js unit :=
  fun _ => mkRun [] st' (inr tt).

Definition liftExn {A : Type} (r : Exn + A) : Js A :=
  match r with
  | inl e => throw e
  | inr a => ret a
  end.

(** A run that comes after some events. *)
Definition after {A : Type} (evs : list Event) (r : Run A) : Run A :=
  mkRun (evs ++ events r) (store r) (result r).

Declare Scope js_scope.
Delimit Scope js_scope with js.
Notation "x <- m ;; k" := (bind m (fun x => k))
  (at level 100, m at next level, right associativity) : js_scope.
Notation "m ;; k" := (bind m (fun _ => k))
  (at level 100, right associativity) : js_scope.
Open Scope js_scope.

(** ** The libraries, as interfaces *)

(** jsonwebtoken. [jwt_decode] is everything [jwt.verify] does with the
    token string before it asks for the key: it fails with a message or
    yields the decoded header. [jwt_key_error] is the message reported when
    the key callback is given an error. [jwt_check] is what happens once a
    key (or undefined) has been handed over: signature, expiration and
    issuer checks, ending in a message or in the decoded payload. *)
Record Jsonwebtoken : Type := mkJwt {
  jwt_decode : string -> string + JwtHeader;
  jwt_key_error : string -> string;
  jwt_check : string -> option string -> VerifyOptions -> string + JsValue
}.

(** jwks-rsa. [jwks_fetch uri kid] is the outcome of downloading the key set
    from [uri] and picking the key [kid]: an error message or the key. *)
Record JwksRsa : Type := mkJwks {
  jwks_fetch : string -> string -> string + SigningKey
}.

(** An incoming request, as far as the handler looks at it. *)
Record Request : Type := mkRequest {
  url : string;
  header : string -> option string;         (* req.header(name) *)
  cookies : option (gmap string string)     (* req.cookies, undefined without a cookie parser *)
}.

Section Libraries.

Variable jwtLib : Jsonwebtoken.
Variable jwksLib : JwksRsa.

(** [jwks({ cache: true, jwksUri })]: a new client object with an empty
    cache. *)
Definition jwks (uri : string) : Js nat :=
  emit (EvJwks uri) ;;
  st <- getStore ;;
  putStore (st ++ [mkClient uri ∅]) ;;
  ret (length st).

(** [client.getSigningKey(kid, cb)] with the cache switched on: a key the
    client has resolved before is answered from its cache, any other one
    costs a download, and a key that was found is remembered. Entries are
    never dropped here (the library bounds their number and age). *)
Definition getSigningKey (client : nat) (kid : string)
    (cb : option string -> option SigningKey -> Js unit) : Js unit :=
  emit (EvGetSigningKey client kid) ;;
  st <- getStore ;;
  match st !! client with
  | None => throw TypeError
  | Some c =>
      match clientCache c !! kid with
      | Some key => cb None (Some key)
      | None =>
          emit (EvFetch (clientUri c) kid) ;;
          match jwks_fetch jwksLib (clientUri c) kid with
          | inl err => cb (Some err) None
          | inr key =>
              putStore (<[client := mkClient (clientUri c) (<[kid := key]> (clientCache c))]> st) ;;
              cb None (Some key)
          end
      end
  end.

(** [jwt.verify(token, getKey, options, callback)] with a key function:
    the token is decoded, [getKey] is called with its header, and each call
    of the function handed to [getKey] ends in a call of [callback]. An
    exception of [getKey] is not caught. *)
Definition jwt_verify (token : string)
    (getKey : JwtHeader -> (option string -> option string -> Js unit) -> Js unit)
    (options : VerifyOptions)
    (callback : string + JsValue -> Js unit) : Js unit :=
  emit (EvVerify token options) ;;
  match jwt_decode jwtLib token with
  | inl message => callback (inl message)
  | inr hdr =>
      getKey hdr (fun error secret =>
        emit (EvKeyCallback error secret) ;;
        match error with
        | Some err => callback (inl (jwt_key_error jwtLib err))
        | None => callback (jwt_check jwtLib token secret options)
        end)
  end.

(** ** The request handler *)

Section Handler.

Variable cfg : Config.
Variable authIgnoreRegex : string -> bool.   (* authIgnoreRegex.exec(url) is not null *)

(** Modelled from the spec: [jwtAuthAuthorizationError] of [@/ResponseHelper]
    is not among the sources; by the specification a rejection answers the
    request with an error response that carries the reason. *)
Definition jwtAuthAuthorizationError (message : string) : Js unit :=
  emit (EvReject message).

Definition next : Js unit := emit EvNext.

(** Lines 57-60: the header if a header name is configured, the cookie
    otherwise. *)
Definition extractToken (req : Request) : option string :=
  if JsString.truthy (jwtAuthHeader cfg)
  then header req (jwtAuthHeader cfg)
  else match cookies req with
       | None => None
       | Some jar => jar !! jwtAuthCookie cfg
       end.

(** Lines 66-68. *)
Definition stripPrefix (token : string) : string :=
  if negb (JsString.eqb (jwtHeaderValuePrefix cfg) "")
     && JsString.startsWith token (jwtHeaderValuePrefix cfg)
  then JsString.trimStart
         (JsString.replace_empty token (jwtHeaderValuePrefix cfg +:+ " "))
  else token.

(** [!header.kid] *)
Definition kidMissing (hdr : JwtHeader) : bool :=
  match kid hdr with
  | None => true
  | Some k => negb (JsString.truthy k)
  end.

(** Lines 71-79. Past the guard [header.kid] is a non-empty string, so the
    default below is never what is looked up. *)
Definition getKey (jwkClient : nat) (hdr : JwtHeader)
    (callbackFn : option string -> option string -> Js unit) : Js unit :=
  if kidMissing hdr then
    jwtAuthAuthorizationError "No JWT key found" ;;
    throw ThrownByCode
  else
    getSigningKey jwkClient (default "" (kid hdr)) (fun error key =>
      (match error with
       | Some err => callbackFn (Some err) None
       | None => ret tt
       end) ;;
      callbackFn None (option_map getPublicKey key)).

(** Lines 81-84. *)
Definition jwtVerifyOptions : VerifyOptions :=
  {| issuer := if negb (JsString.eqb (jwtIssuer cfg) "") then Some (jwtIssuer cfg) else None;
     ignoreExpiration := false |}.

(** Lines 86-94: the callback given to [jwt.verify]. *)
Definition verifyCallback (outcome : string + JsValue) : Js unit :=
  match outcome with
  | inl message => jwtAuthAuthorizationError ("Invalid token: " +:+ message)
  | inr decoded =>
      allowed <- liftExn (isTenantAllowed cfg decoded) ;;
      if negb allowed
      then jwtAuthAuthorizationError "Tenant not allowed"
      else next
  end.

(** Lines 52-95: the function given to [app.use]. *)
Definition middleware (req : Request) : Js unit :=
  if authIgnoreRegex (url req) then next
  else
    match extractToken req with
    | None => jwtAuthAuthorizationError "Missing token"
    | Some token =>
        if JsString.eqb token "" then jwtAuthAuthorizationError "Missing token"
        else
          let token := stripPrefix token in
          jwkClient <- jwks (jwksUri cfg) ;;
          jwt_verify token (getKey jwkClient) jwtVerifyOptions verifyCallback
    end.

(** The process handles the requests one after the other, each on the store
    the one before left. *)
Fixpoint serve (reqs : list Request) (st : Store) : list Event * Store :=
  match reqs with
  | [] => ([], st)
  | req :: rest =>
      let r := middleware req st in
      let '(evs, st') := serve rest (store r) in
      ((events r ++ evs), st')
  end.

End Handler.

(** Lines 8-24, 95: the set-up refuses a configuration without a token
    source or without a key set address, and installs the handler
    otherwise. *)
Definition setupExternalJWTAuth (cfg : Config) (authIgnoreRegex : string -> bool)
  : string + (Request -> Js unit) :=
  if JsString.eqb (jwtAuthHeader cfg) "" && JsString.eqb (jwtAuthCookie cfg) "" then
    inl "JWT auth is activated but no request header or cookie was defined. Please set one!"
  else if JsString.eqb (jwksUri cfg) "" then
    inl "JWT auth is activated but no JWK Set URI was defined. Please set one!"
  else inr (middleware cfg authIgnoreRegex).

End Libraries.

(** ** The specification's wording of two operations, for comparison *)

(** The tenant rule as the specification words it: the claim set has an
    entry named by the namespace key whose value is a mapping, and that
    mapping has an entry named by the tenant key whose value is the allowed
    tenant. *)
Definition tenantClaimMatches (cfg : Config) (claims : list (string * JsValue)) : Prop :=
  exists props,
    In (jwtNamespace cfg, JObj props) claims
    /\ In (jwtAllowedTenantKey cfg, JStr (jwtAllowedTenant cfg)) props.

(** Prefix stripping as the specification words it: the prefix and exactly
    one code unit after it are removed, then leading white space. *)
Definition stripPrefix_spec (prefix token : string) : string :=
  if negb (JsString.eqb prefix "") && JsString.startsWith token prefix
  then JsString.trimStart (JsString.drop 1 (JsString.drop (String.length prefix) token))
  else token.

(** What the libraries are relied on for. *)

(** jsonwebtoken refuses a token that has expired unless it is told to
    ignore expiration, whatever the key. [expired] says which token strings
    carry an expiration claim that lies in the past. *)
Definition enforcesExpiration (lib : Jsonwebtoken) (expired : string -> bool) : Prop :=
  forall token key options,
    expired token = true ->
    ignoreExpiration options = false ->
    exists message, jwt_check lib token key options = inl message.

(** jsonwebtoken refuses a string of white space (or the empty string)
    before it asks for a key: such a string is not three segments. *)
Definition refusesBlank (lib : Jsonwebtoken) : Prop :=
  forall token,
    JsString.allWhiteSpace token = true ->
    exists message, jwt_decode lib token = inl message.

(** Counting the downloads of the key set for one kid. *)
Definition isFetchOf (k : string) (e : Event) : bool :=
  match e with
  | EvFetch _ k' => JsString.eqb k k'
  | _ => false
  end.

Definition fetchCount (k : string) (evs : list Event) : nat :=
  length (List.filter (isFetchOf k) evs).

Definition isDecision (e : Event) : bool :=
  match e with
  | EvNext | EvReject _ => true
  | _ => false
  end.

(** ** A test double of the two libraries

    Tokens are three dot-separated segments [kid.payload.signature]; a
    signature is good when it is the key itself; the payload names one of a
    few claim sets. *)

Module Fixture.

Fixpoint segments (s : string) : list string :=
  match s with
  | EmptyString => [EmptyString]
  | String c s' =>
      if Ascii.eqb c "."%char then EmptyString :: segments s'
      else match segments s' with
           | [] => [String c EmptyString]
           | seg :: segs => String c seg :: segs
           end
  end.

Definition decode (token : string) : string + JwtHeader :=
  if JsString.eqb token "" then inl "jwt must be provided"
  else match segments token with
       | [h; _; _] => inr (mkHeader (if JsString.eqb h "" then None else Some h))
       | _ => inl "jwt malformed"
       end.

Definition claimsOf (payload : string) : JsValue :=
  if JsString.eqb payload "acme" then
    JObj [("sub", JStr "u1"); ("org", JObj [("tenant", JStr "acme")])]
  else if JsString.eqb payload "other" then
    JObj [("sub", JStr "u2"); ("org", JObj [("tenant", JStr "globex")])]
  else if JsString.eqb payload "null" then
    JObj [("sub", JStr "u3"); ("org", JNull)]
  else JObj [("sub", JStr "u0")].

Definition expired (token : string) : bool :=
  match segments token with
  | [_; p; _] => JsString.eqb p "expired"
  | _ => false
  end.

Definition check (token : string) (key : option string) (options : VerifyOptions)
  : string + JsValue :=
  match segments token with
  | [_; p; sig] =>
      match key with
      | None => inl "secret or public key must be provided"
      | Some k =>
          if negb (JsString.eqb sig k) then inl "invalid signature"
          else if JsString.eqb p "expired" && negb (ignoreExpiration options)
               then inl "jwt expired"
               else inr (claimsOf p)
      end
  | _ => inl "jwt malformed"
  end.

Definition jwtLib : Jsonwebtoken :=
  mkJwt decode (fun err => "error in secret or public key callback: " +:+ err) check.

Definition jwksLib : JwksRsa :=
  mkJwks (fun _ k =>
    if JsString.eqb k "k1" then inr (mkKey "k1" "pem1")
    else inl "Unable to find a signing key that matches the kid").

Definition cfg : Config :=
  {| jwtAuthHeader := "authorization";
     jwtAuthCookie := "";
     jwksUri := "https://idp.example/jwks.json";
     jwtHeaderValuePrefix := "Bearer";
     jwtIssuer := "";
     jwtNamespace := "org";
     jwtAllowedTenantKey := "tenant";
     jwtAllowedTenant := "acme" |}.

(** The same, with the tenant check switched off. *)
Definition cfgOpen : Config :=
  {| jwtAuthHeader := "authorization";
     jwtAuthCookie := "";
     jwksUri := "https://idp.example/jwks.json";
     jwtHeaderValuePrefix := "Bearer";
     jwtIssuer := "";
     jwtNamespace := "";
     jwtAllowedTenantKey := "";
     jwtAllowedTenant := "" |}.

(** A deployment whose tenant key is the string "0". *)
Definition cfgIndex : Config :=
  {| jwtAuthHeader := "authorization";
     jwtAuthCookie := "";
     jwksUri := "https://idp.example/jwks.json";
     jwtHeaderValuePrefix := "Bearer";
     jwtIssuer := "";
     jwtNamespace := "org";
     jwtAllowedTenantKey := "0";
     jwtAllowedTenant := "acme" |}.

Definition ignoreRegex (u : string) : bool := String.prefix "/healthz" u.

(** A request for a protected path with the given authorization header and
    a cookie jar that holds a token of its own. *)
Definition request (authorization : option string) : Request :=
  {| url := "/rest/workflows";
     header := fun name => if JsString.eqb name "authorization" then authorization else None;
     cookies := Some {[ "n8n-jwt" := "k1.acme.pem1" ]} |}.

Definition handle (authorization : option string) : Run unit :=
  middleware jwtLib jwksLib cfg ignoreRegex (request authorization) [].

End Fixture.

(** Calls of [jwt.verify] in a trace. *)
Definition isVerify (e : Event) : bool :=
  match e with
  | EvVerify _ _ => true
  | _ => false
  end.

(** The ways a request can go through the handler, each with the run it
    gives: exempt, no token, token refused before the key is asked for,
    header without a kid, key lookup failed, key found. [middleware_shape]
    below shows that every run of [middleware] is one of them. *)
Inductive RunShape (jwtLib : Jsonwebtoken) (jwksLib : JwksRsa) (cfg : Config)
    (authIgnoreRegex : string -> bool) (req : Request) (st : Store) : Run unit -> Prop :=
| ShapeExempt :
    authIgnoreRegex (url req) = true ->
    RunShape jwtLib jwksLib cfg authIgnoreRegex req st (mkRun [EvNext] st (inr tt))
| ShapeMissing :
    authIgnoreRegex (url req) = false ->
    extractToken cfg req = None \/ extractToken cfg req = Some "" ->
    RunShape jwtLib jwksLib cfg authIgnoreRegex req st
      (mkRun [EvReject "Missing token"] st (inr tt))
| ShapeRefused (t message : string) :
    authIgnoreRegex (url req) = false ->
    extractToken cfg req = Some t -> t <> "" ->
    jwt_decode jwtLib (stripPrefix cfg t) = inl message ->
    RunShape jwtLib jwksLib cfg authIgnoreRegex req st
      (mkRun [EvJwks (jwksUri cfg);
              EvVerify (stripPrefix cfg t) (jwtVerifyOptions cfg);
              EvReject ("Invalid token: " +:+ message)]
             (st ++ [mkClient (jwksUri cfg) ∅]) (inr tt))
| ShapeNoKid (t : string) (hdr : JwtHeader) :
    authIgnoreRegex (url req) = false ->
    extractToken cfg req = Some t -> t <> "" ->
    jwt_decode jwtLib (stripPrefix cfg t) = inr hdr ->
    kidMissing hdr = true ->
    RunShape jwtLib jwksLib cfg authIgnoreRegex req st
      (mkRun [EvJwks (jwksUri cfg);
              EvVerify (stripPrefix cfg t) (jwtVerifyOptions cfg);
              EvReject "No JWT key found"]
             (st ++ [mkClient (jwksUri cfg) ∅]) (inl ThrownByCode))
| ShapeKeyError (t : string) (hdr : JwtHeader) (k err : string) :
    authIgnoreRegex (url req) = false ->
    extractToken cfg req = Some t -> t <> "" ->
    jwt_decode jwtLib (stripPrefix cfg t) = inr hdr ->
    kid hdr = Some k -> k <> "" ->
    jwks_fetch jwksLib (jwksUri cfg) k = inl err ->
    RunShape jwtLib jwksLib cfg authIgnoreRegex req st
      (after [EvJwks (jwksUri cfg);
              EvVerify (stripPrefix cfg t) (jwtVerifyOptions cfg);
              EvGetSigningKey (length st) k;
              EvFetch (jwksUri cfg) k;
              EvKeyCallback (Some err) None;
              EvReject ("Invalid token: " +:+ jwt_key_error jwtLib err);
              EvKeyCallback None None]
         (verifyCallback cfg
            (jwt_check jwtLib (stripPrefix cfg t) None (jwtVerifyOptions cfg))
            (st ++ [mkClient (jwksUri cfg) ∅])))
| ShapeKeyFound (t : string) (hdr : JwtHeader) (k : string) (key : SigningKey) :
    authIgnoreRegex (url req) = false ->
    extractToken cfg req = Some t -> t <> "" ->
    jwt_decode jwtLib (stripPrefix cfg t) = inr hdr ->
    kid hdr = Some k -> k <> "" ->
    jwks_fetch jwksLib (jwksUri cfg) k = inr key ->
    RunShape jwtLib jwksLib cfg authIgnoreRegex req st
      (after [EvJwks (jwksUri cfg);
              EvVerify (stripPrefix cfg t) (jwtVerifyOptions cfg);
              EvGetSigningKey (length st) k;
              EvFetch (jwksUri cfg) k;
              EvKeyCallback None (Some (publicKey key))]
         (verifyCallback cfg
            (jwt_check jwtLib (stripPrefix cfg t) (Some (publicKey key)) (jwtVerifyOptions cfg))
            (st ++ [mkClient (jwksUri cfg) {[ k := key ]}]))).

(** The key [getKey] hands to [jwt.verify] last for the kid [k]: the public
    key of the signing key that was found, or undefined when the lookup
    failed. *)
Definition keyHandedOver (jwksLib : JwksRsa) (cfg : Config) (k : string) : option string :=
  match jwks_fetch jwksLib (jwksUri cfg) k with
  | inl _ => None
  | inr key => Some (getPublicKey key)
  end.

(** * Properties *)

(** ** Strings *)

Lemma eqb_empty_false (s : string) : s <> "" -> JsString.eqb s "" = false.
Proof. intros H. unfold JsString.eqb. now apply String.eqb_neq. Qed.

Lemma truthy_nonempty (s : string) : s <> "" -> JsString.truthy s = true.
Proof. intros H. unfold JsString.truthy. now rewrite (proj2 (String.eqb_neq s "") H). Qed.

Lemma prefix_append (p s : string) : String.prefix p (p +:+ s) = true.
Proof.
  induction p as [|a p IH]; simpl.
  - now destruct s.
  - destruct (ascii_dec a a); [exact IH | congruence].
Qed.

Lemma drop_append (p s : string) : JsString.drop (String.length p) (p +:+ s) = s.
Proof. induction p as [|a p IH]; simpl; [now destruct s | exact IH]. Qed.

Lemma replace_empty_eq (s pat : string) :
  JsString.replace_empty s pat =
  if String.prefix pat s then JsString.drop (String.length pat) s
  else match s with
       | EmptyString => EmptyString
       | String c s' => String c (JsString.replace_empty s' pat)
       end.
Proof. destruct s; reflexivity. Qed.

Lemma replace_empty_leading (pat rest : string) :
  JsString.replace_empty (pat +:+ rest) pat = rest.
Proof. rewrite replace_empty_eq, prefix_append. apply drop_append. Qed.

Lemma append_assoc (a b c : string) : (a +:+ b) +:+ c = a +:+ (b +:+ c).
Proof.
  induction a as [|x a IH]; [reflexivity|].
  change (String x ((a +:+ b) +:+ c) = String x (a +:+ (b +:+ c))). now rewrite IH.
Qed.

Lemma allWhiteSpace_drop (n : nat) (s : string) :
  JsString.allWhiteSpace s = true -> JsString.allWhiteSpace (JsString.drop n s) = true.
Proof.
  revert s. induction n as [|n IH]; intros s H; [now destruct s|].
  destruct s as [|c s]; simpl in *; [reflexivity|].
  apply andb_prop in H. now apply IH.
Qed.

Lemma allWhiteSpace_replace (s pat : string) :
  JsString.allWhiteSpace s = true ->
  JsString.allWhiteSpace (JsString.replace_empty s pat) = true.
Proof.
  induction s as [|c s IH]; intros H; rewrite replace_empty_eq.
  - destruct (String.prefix pat ""); [now apply allWhiteSpace_drop | reflexivity].
  - destruct (String.prefix pat (String c s)); [now apply allWhiteSpace_drop|].
    simpl in *. apply andb_prop in H as [Hc Hs]. rewrite Hc. now apply IH.
Qed.

Lemma allWhiteSpace_trimStart (s : string) :
  JsString.allWhiteSpace s = true -> JsString.trimStart s = "".
Proof.
  induction s as [|c s IH]; simpl; intros H; [reflexivity|].
  apply andb_prop in H as [Hc Hs]. rewrite Hc. now apply IH.
Qed.

(** ** The tenant check *)

Lemma strictEqStr_true (v : JsValue) (s : string) :
  strictEqStr v s = true <-> v = JStr s.
Proof.
  destruct v; simpl; try (split; [discriminate | intros H; discriminate H]).
  unfold JsString.eqb. rewrite String.eqb_eq. split; congruence.
Qed.

Lemma tenantLoop_true (cfg : Config) (entries : list (string * JsValue)) :
  tenantLoop cfg entries = true
  <-> In (jwtAllowedTenantKey cfg, JStr (jwtAllowedTenant cfg)) entries.
Proof.
  induction entries as [|[kn kv] rest IH]; simpl.
  - split; [discriminate | tauto].
  - destruct (JsString.eqb kn (jwtAllowedTenantKey cfg)
              && strictEqStr kv (jwtAllowedTenant cfg)) eqn:E.
    + apply andb_prop in E as [E1 E2].
      apply String.eqb_eq in E1. apply strictEqStr_true in E2. subst.
      split; auto.
    + rewrite IH. split; [auto|]. intros [H|H]; [|exact H].
      inversion H; subst. simpl in E. unfold JsString.eqb in E.
      rewrite !String.eqb_refl in E. discriminate.
Qed.

(** The outer loop, when no value under the namespace key is null or
    undefined. *)
Lemma namespaceLoop_total (cfg : Config) (entries : list (string * JsValue)) :
  (forall v, In (jwtNamespace cfg, v) entries -> v <> JNull /\ v <> JUndefined) ->
  exists b,
    namespaceLoop cfg entries = inr b
    /\ (b = true <->
        exists v inner,
          In (jwtNamespace cfg, v) entries
          /\ Object_entries v = inr inner
          /\ In (jwtAllowedTenantKey cfg, JStr (jwtAllowedTenant cfg)) inner).
Proof.
  induction entries as [|[k v] rest IH]; intros Hnn; simpl.
  - exists false. split; [reflexivity|]. split; [discriminate|].
    intros (? & ? & [] & _).
  - destruct IH as (b & Hb & Hiff); [intros w Hw; apply Hnn; now right|].
    destruct (JsString.eqb k (jwtNamespace cfg)) eqn:Ek.
    + apply String.eqb_eq in Ek. subst k.
      destruct (Object_entries v) as [e|inner] eqn:Ev.
      { destruct (Hnn v (or_introl eq_refl)) as [H1 H2].
        destruct v; simpl in Ev; congruence. }
      destruct (tenantLoop cfg inner) eqn:Et.
      * exists true. split; [reflexivity|]. split; [|reflexivity].
        intros _. exists v, inner. apply tenantLoop_true in Et. auto.
      * exists b. split; [exact Hb|]. rewrite Hiff. split.
        -- intros (w & i & Hw & Hi & Hin). exists w, i. auto.
        -- intros (w & i & [Hw|Hw] & Hi & Hin).
           ++ inversion Hw; subst w. rewrite Ev in Hi. inversion Hi; subst i.
              apply tenantLoop_true in Hin. congruence.
           ++ exists w, i. auto.
    + exists b. split; [exact Hb|]. rewrite Hiff. split.
      * intros (w & i & Hw & Hi & Hin). exists w, i. auto.
      * intros (w & i & [Hw|Hw] & Hi & Hin).
        -- inversion Hw; subst. unfold JsString.eqb in Ek.
           rewrite String.eqb_refl in Ek. discriminate.
        -- exists w, i. auto.
Qed.

Lemma tenant_check_configured (cfg : Config) :
  jwtNamespace cfg <> "" -> jwtAllowedTenantKey cfg <> "" -> jwtAllowedTenant cfg <> "" ->
  JsString.eqb (jwtNamespace cfg) ""
  || JsString.eqb (jwtAllowedTenantKey cfg) ""
  || JsString.eqb (jwtAllowedTenant cfg) "" = false.
Proof. intros H1 H2 H3. now rewrite !eqb_empty_false. Qed.

(** ** Runs of the handler, path by path *)

Lemma verifyCallback_cases (cfg : Config) (outcome : string + JsValue) (st : Store) :
  verifyCallback cfg outcome st =
  match outcome with
  | inl message => mkRun [EvReject ("Invalid token: " +:+ message)] st (inr tt)
  | inr decoded =>
      match isTenantAllowed cfg decoded with
      | inl e => mkRun [] st (inl e)
      | inr true => mkRun [EvNext] st (inr tt)
      | inr false => mkRun [EvReject "Tenant not allowed"] st (inr tt)
      end
  end.
Proof.
  destruct outcome as [m|d]; [reflexivity|].
  unfold verifyCallback, bind.
  destruct (isTenantAllowed cfg d) as [e|[|]]; reflexivity.
Qed.

Lemma verifyCallback_store (cfg : Config) (outcome : string + JsValue) (st : Store) :
  store (verifyCallback cfg outcome st) = st.
Proof.
  rewrite verifyCallback_cases.
  destruct outcome as [m|d]; [reflexivity|].
  destruct (isTenantAllowed cfg d) as [e|[|]]; reflexivity.
Qed.

Lemma verifyCallback_no_fetch (cfg : Config) (outcome : string + JsValue) (st : Store) (k : string) :
  fetchCount k (events (verifyCallback cfg outcome st)) = 0.
Proof.
  rewrite verifyCallback_cases.
  destruct outcome as [m|d]; [reflexivity|].
  destruct (isTenantAllowed cfg d) as [e|[|]]; reflexivity.
Qed.

Lemma fetchCount_app (k : string) (a b : list Event) :
  fetchCount k (a ++ b) = fetchCount k a + fetchCount k b.
Proof. unfold fetchCount. now rewrite List.filter_app, length_app. Qed.

Lemma lookup_new_client (st : Store) (c : JwksClient) :
  (st ++ [c]) !! length st = Some c.
Proof. now apply list_lookup_middle. Qed.

Lemma insert_new_client (st : Store) (c c' : JwksClient) :
  <[length st := c']> (st ++ [c]) = (st ++ [c']).
Proof.
  rewrite insert_app_r_alt by lia.
  now replace (length st - length st) with 0 by lia.
Qed.

(** Nothing extracted, or the empty string: the rejection is all there is. *)
Lemma run_missing_token
    (jwtLib : Jsonwebtoken) (jwksLib : JwksRsa) (cfg : Config)
    (authIgnoreRegex : string -> bool) (req : Request) (st : Store) :
  authIgnoreRegex (url req) = false ->
  extractToken cfg req = None \/ extractToken cfg req = Some "" ->
  middleware jwtLib jwksLib cfg authIgnoreRegex req st
  = mkRun [EvReject "Missing token"] st (inr tt).
Proof.
  intros Hex [H|H]; unfold middleware; rewrite Hex, H; reflexivity.
Qed.

Section Paths.

Variable jwtLib : Jsonwebtoken.
Variable jwksLib : JwksRsa.
Variable cfg : Config.
Variable authIgnoreRegex : string -> bool.
Variable req : Request.
Variable st : Store.
Variable t : string.

Hypothesis not_exempt : authIgnoreRegex (url req) = false.
Hypothesis extracted : extractToken cfg req = Some t.
Hypothesis not_empty : t <> "".

(** The token is refused before a key is asked for. *)
Lemma run_decode_failure (message : string) :
  jwt_decode jwtLib (stripPrefix cfg t) = inl message ->
  middleware jwtLib jwksLib cfg authIgnoreRegex req st
  = mkRun [EvJwks (jwksUri cfg);
           EvVerify (stripPrefix cfg t) (jwtVerifyOptions cfg);
           EvReject ("Invalid token: " +:+ message)]
          (st ++ [mkClient (jwksUri cfg) ∅]) (inr tt).
Proof.
  intros Hd. unfold middleware.
  rewrite not_exempt, extracted, (eqb_empty_false t not_empty).
  unfold jwks, jwt_verify, bind, emit, getStore, putStore, ret. simpl.
  rewrite Hd. reflexivity.
Qed.

(** The header has no kid: the rejection is sent and its result thrown. *)
Lemma run_no_kid (hdr : JwtHeader) :
  jwt_decode jwtLib (stripPrefix cfg t) = inr hdr ->
  kidMissing hdr = true ->
  middleware jwtLib jwksLib cfg authIgnoreRegex req st
  = mkRun [EvJwks (jwksUri cfg);
           EvVerify (stripPrefix cfg t) (jwtVerifyOptions cfg);
           EvReject "No JWT key found"]
          (st ++ [mkClient (jwksUri cfg) ∅]) (inl ThrownByCode).
Proof.
  intros Hd Hk. unfold middleware.
  rewrite not_exempt, extracted, (eqb_empty_false t not_empty).
  unfold jwks, jwt_verify, bind, emit, getStore, putStore, ret. simpl.
  rewrite Hd. unfold getKey. rewrite Hk. reflexivity.
Qed.

(** The key is found: it is downloaded, remembered by the client of this
    request, and verification goes on with it. *)
Lemma run_key_found (hdr : JwtHeader) (key : SigningKey) :
  jwt_decode jwtLib (stripPrefix cfg t) = inr hdr ->
  kidMissing hdr = false ->
  jwks_fetch jwksLib (jwksUri cfg) (default "" (kid hdr)) = inr key ->
  middleware jwtLib jwksLib cfg authIgnoreRegex req st
  = after [EvJwks (jwksUri cfg);
           EvVerify (stripPrefix cfg t) (jwtVerifyOptions cfg);
           EvGetSigningKey (length st) (default "" (kid hdr));
           EvFetch (jwksUri cfg) (default "" (kid hdr));
           EvKeyCallback None (Some (publicKey key))]
      (verifyCallback cfg
         (jwt_check jwtLib (stripPrefix cfg t) (Some (publicKey key)) (jwtVerifyOptions cfg))
         (st ++ [mkClient (jwksUri cfg) {[ default "" (kid hdr) := key ]}])).
Proof.
  intros Hd Hk Hf. unfold middleware.
  rewrite not_exempt, extracted, (eqb_empty_false t not_empty).
  unfold jwks, jwt_verify, bind, emit, getStore, putStore, ret. simpl.
  rewrite Hd. unfold getKey. rewrite Hk.
  unfold getSigningKey, bind, emit, getStore, putStore. simpl.
  rewrite lookup_new_client. simpl. rewrite lookup_empty. simpl.
  rewrite Hf. simpl. rewrite insert_new_client.
  unfold after. simpl. reflexivity.
Qed.

(** The key lookup fails: the callback is called with the error, and then
    once more with no key. *)
Lemma run_key_error (hdr : JwtHeader) (err : string) :
  jwt_decode jwtLib (stripPrefix cfg t) = inr hdr ->
  kidMissing hdr = false ->
  jwks_fetch jwksLib (jwksUri cfg) (default "" (kid hdr)) = inl err ->
  middleware jwtLib jwksLib cfg authIgnoreRegex req st
  = after [EvJwks (jwksUri cfg); EvVerify (stripPrefix cfg t) (jwtVerifyOptions cfg);
               EvGetSigningKey (length st) (default "" (kid hdr));
               EvFetch (jwksUri cfg) (default "" (kid hdr));
               EvKeyCallback (Some err) None;
               EvReject ("Invalid token: " +:+ jwt_key_error jwtLib err);
               EvKeyCallback None None]
          (verifyCallback cfg (jwt_check jwtLib (stripPrefix cfg t) None (jwtVerifyOptions cfg))
             (st ++ [mkClient (jwksUri cfg) ∅])).
Proof.
  intros Hd Hk Hf. unfold middleware.
  rewrite not_exempt, extracted, (eqb_empty_false t not_empty).
  unfold jwks, jwt_verify, bind, emit, getStore, putStore, ret. simpl.
  rewrite Hd. unfold getKey. rewrite Hk.
  unfold getSigningKey, bind, emit, getStore, putStore. simpl.
  rewrite lookup_new_client. simpl. rewrite lookup_empty. simpl.
  rewrite Hf. simpl.
  unfold after. simpl. reflexivity.
Qed.

End Paths.

(** ** The test double keeps what the libraries are relied on for *)

Lemma whitespace_not_dot (c : ascii) :
  JsString.isWhiteSpace c = true -> Ascii.eqb c "."%char = false.
Proof.
  intros H. destruct (Ascii.eqb c "."%char) eqn:E; [|reflexivity].
  apply Ascii.eqb_eq in E. subst c. discriminate H.
Qed.

Lemma segments_blank (s : string) :
  JsString.allWhiteSpace s = true -> Fixture.segments s = [s].
Proof.
  induction s as [|c s IH]; simpl; intros H; [reflexivity|].
  apply andb_prop in H as [Hc Hs].
  rewrite (whitespace_not_dot c Hc), (IH Hs). reflexivity.
Qed.

Lemma fixture_refuses_blank : refusesBlank Fixture.jwtLib.
Proof.
  intros token H. simpl. unfold Fixture.decode.
  destruct (JsString.eqb token ""); [eauto|].
  rewrite (segments_blank token H). eauto.
Qed.

Lemma fixture_enforces_expiration : enforcesExpiration Fixture.jwtLib Fixture.expired.
Proof.
  intros token key options Hexp Hign. simpl. unfold Fixture.check, Fixture.expired in *.
  destruct (Fixture.segments token) as [|h [|p [|sig [|? ?]]]]; try discriminate.
  destruct key as [k|]; [|eauto].
  destruct (negb (JsString.eqb sig k)); [eauto|].
  rewrite Hexp, Hign. simpl. eauto.
Qed.

Lemma fixture_check_payload (token : string) (key : option string)
    (options : VerifyOptions) (decoded : JsValue) :
  Fixture.check token key options = inr decoded ->
  decoded = Fixture.claimsOf (nth 1 (Fixture.segments token) "").
Proof.
  unfold Fixture.check.
  destruct (Fixture.segments token) as [|h [|p [|sig [|? ?]]]]; try discriminate.
  destruct key as [k|]; [|discriminate].
  destruct (negb (JsString.eqb sig k)); [discriminate|].
  destruct (JsString.eqb p "expired" && negb (ignoreExpiration options)); [discriminate|].
  intros H. inversion H. reflexivity.
Qed.

(** ** Token extraction and prefix stripping *)

(** C9: the token comes from the configured header when a header name is
    set and from the configured cookie only when none is set; with a header
    name set and the header missing, nothing is extracted whatever the
    cookies hold, and the request is rejected for its missing token. *)
Theorem extractToken_header_or_cookie
    (jwtLib : Jsonwebtoken) (jwksLib : JwksRsa) (cfg : Config)
    (authIgnoreRegex : string -> bool) (req : Request) (st : Store) :
  (jwtAuthHeader cfg <> "" ->
     extractToken cfg req = header req (jwtAuthHeader cfg))
  /\ (jwtAuthHeader cfg = "" ->
        extractToken cfg req =
        match cookies req with
        | None => None
        | Some jar => jar !! jwtAuthCookie cfg
        end)
  /\ (jwtAuthHeader cfg <> "" ->
      header req (jwtAuthHeader cfg) = None ->
      authIgnoreRegex (url req) = false ->
      forall jar,
        extractToken cfg (mkRequest (url req) (header req) jar) = None
        /\ middleware jwtLib jwksLib cfg authIgnoreRegex
             (mkRequest (url req) (header req) jar) st
           = mkRun [EvReject "Missing token"] st (inr tt)).
Proof.
  repeat split.
  - intros H. unfold extractToken. now rewrite (truthy_nonempty _ H).
  - intros H. unfold extractToken. now rewrite H.
  - unfold extractToken. simpl. now rewrite (truthy_nonempty _ H), H0.
  - unfold middleware, extractToken. simpl.
    now rewrite H1, (truthy_nonempty _ H), H0.
Qed.

Lemma extractToken_header_or_cookie_witness :
  extractToken Fixture.cfg (Fixture.request None) = None
  /\ middleware Fixture.jwtLib Fixture.jwksLib Fixture.cfg Fixture.ignoreRegex
       (Fixture.request None) []
     = mkRun [EvReject "Missing token"] [] (inr tt).
Proof.
  apply (extractToken_header_or_cookie Fixture.jwtLib Fixture.jwksLib Fixture.cfg
           Fixture.ignoreRegex (Fixture.request None) []);
    [discriminate | reflexivity | reflexivity].
Defined.

(** C7: a request that is not exempt and whose token source yields nothing
    or the empty string is rejected with "Missing token", and nothing else
    happens: no client is built, no key is resolved, nothing is verified. *)
Theorem missing_token_rejected
    (jwtLib : Jsonwebtoken) (jwksLib : JwksRsa) (cfg : Config)
    (authIgnoreRegex : string -> bool) (req : Request) (st : Store) :
  authIgnoreRegex (url req) = false ->
  extractToken cfg req = None \/ extractToken cfg req = Some "" ->
  middleware jwtLib jwksLib cfg authIgnoreRegex req st
  = mkRun [EvReject "Missing token"] st (inr tt).
Proof. apply run_missing_token. Qed.

Lemma missing_token_rejected_witness :
  middleware Fixture.jwtLib Fixture.jwksLib Fixture.cfg Fixture.ignoreRegex
    (Fixture.request (Some "")) []
  = mkRun [EvReject "Missing token"] [] (inr tt).
Proof.
  apply missing_token_rejected; [reflexivity | right; reflexivity].
Defined.

(** C4, as the specification states it, fails: a token that starts with the
    prefix but has no space after it keeps the prefix, where the
    specification removes it together with the code unit that follows. *)
Lemma stripPrefix_spec_counterexample :
  ~ (forall (cfg : Config) (token : string),
       stripPrefix cfg token = stripPrefix_spec (jwtHeaderValuePrefix cfg) token).
Proof.
  intros H. specialize (H Fixture.cfg "Bearerabc"). vm_compute in H. discriminate H.
Qed.

(** C4, amended: with a non-empty prefix, a token that starts with the
    prefix followed by a space comes back without the two and without
    leading white space; with an empty prefix, or a token that does not
    start with the prefix, the token comes back unchanged. With the prefix
    "Bearer", "Bearer abc" gives "abc" and "abc" stays "abc". *)
Theorem stripPrefix_separator (cfg : Config) :
  (forall rest,
     jwtHeaderValuePrefix cfg <> "" ->
     stripPrefix cfg (jwtHeaderValuePrefix cfg +:+ " " +:+ rest) = JsString.trimStart rest)
  /\ (forall token,
        jwtHeaderValuePrefix cfg = ""
        \/ JsString.startsWith token (jwtHeaderValuePrefix cfg) = false ->
        stripPrefix cfg token = token)
  /\ (jwtHeaderValuePrefix cfg = "Bearer" ->
      stripPrefix cfg "Bearer abc" = "abc" /\ stripPrefix cfg "abc" = "abc").
Proof.
  repeat split.
  - intros rest Hne. unfold stripPrefix, JsString.startsWith.
    rewrite (eqb_empty_false _ Hne), prefix_append. simpl.
    now rewrite <- append_assoc, replace_empty_leading.
  - intros token [H|H]; unfold stripPrefix.
    + now rewrite H.
    + rewrite H. now rewrite andb_false_r.
  - unfold stripPrefix. rewrite H. reflexivity.
  - unfold stripPrefix. rewrite H. reflexivity.
Qed.

Lemma stripPrefix_separator_witness :
  stripPrefix Fixture.cfg ("Bearer" +:+ " " +:+ "  k1.acme.pem1") = "k1.acme.pem1"
  /\ stripPrefix Fixture.cfg "k1.acme.pem1" = "k1.acme.pem1"
  /\ stripPrefix Fixture.cfg "Bearer abc" = "abc"
  /\ stripPrefix Fixture.cfg "abc" = "abc".
Proof.
  destruct (stripPrefix_separator Fixture.cfg) as (H1 & H2 & H3).
  split; [exact (H1 "  k1.acme.pem1" ltac:(discriminate))|].
  split; [exact (H2 "k1.acme.pem1" (or_intror eq_refl))|].
  exact (H3 eq_refl).
Defined.

(** ** The tenant check, and the handler's use of it *)

(** C6: with the namespace key, the tenant key or the allowed tenant left
    empty, [isTenantAllowed] answers true for every decoded token; so a
    request whose token the library verifies (the key is found, signature,
    expiration and issuer are in order) is handed to [next], and to nothing
    else, whatever the token's claims. *)
Theorem isTenantAllowed_disabled (cfg : Config) (decoded : JsValue) :
  jwtNamespace cfg = "" \/ jwtAllowedTenantKey cfg = "" \/ jwtAllowedTenant cfg = "" ->
  isTenantAllowed cfg decoded = inr true
  /\ (forall (jwtLib : Jsonwebtoken) (jwksLib : JwksRsa) (authIgnoreRegex : string -> bool)
             (req : Request) (st : Store) (t : string) (hdr : JwtHeader) (key : SigningKey),
        authIgnoreRegex (url req) = false ->
        extractToken cfg req = Some t ->
        t <> "" ->
        jwt_decode jwtLib (stripPrefix cfg t) = inr hdr ->
        kidMissing hdr = false ->
        jwks_fetch jwksLib (jwksUri cfg) (default "" (kid hdr)) = inr key ->
        jwt_check jwtLib (stripPrefix cfg t) (Some (publicKey key)) (jwtVerifyOptions cfg)
          = inr decoded ->
        result (middleware jwtLib jwksLib cfg authIgnoreRegex req st) = inr tt
        /\ List.filter isDecision (events (middleware jwtLib jwksLib cfg authIgnoreRegex req st))
           = [EvNext]).
Proof.
  intros H.
  assert (E : isTenantAllowed cfg decoded = inr true).
  { unfold isTenantAllowed. destruct H as [H|[H|H]]; rewrite H; simpl;
      rewrite ?orb_true_r; reflexivity. }
  split; [exact E|].
  intros jwtLib jwksLib authIgnoreRegex req st t hdr key Hex Htok Hne Hd Hk Hf Hc.
  rewrite (run_key_found jwtLib jwksLib cfg authIgnoreRegex req st t
             Hex Htok Hne hdr key Hd Hk Hf).
  rewrite Hc, verifyCallback_cases, E. split; reflexivity.
Qed.

Lemma isTenantAllowed_disabled_witness :
  isTenantAllowed Fixture.cfgOpen (Fixture.claimsOf "null") = inr true
  /\ result (middleware Fixture.jwtLib Fixture.jwksLib Fixture.cfgOpen Fixture.ignoreRegex
               (Fixture.request (Some "Bearer k1.null.pem1")) []) = inr tt
  /\ List.filter isDecision
       (events (middleware Fixture.jwtLib Fixture.jwksLib Fixture.cfgOpen Fixture.ignoreRegex
                  (Fixture.request (Some "Bearer k1.null.pem1")) []))
     = [EvNext].
Proof.
  destruct (isTenantAllowed_disabled Fixture.cfgOpen (Fixture.claimsOf "null")
              (or_introl eq_refl)) as [H1 H2].
  split; [exact H1|].
  apply (H2 Fixture.jwtLib Fixture.jwksLib Fixture.ignoreRegex
            (Fixture.request (Some "Bearer k1.null.pem1")) [] "Bearer k1.null.pem1"
            (mkHeader (Some "k1")) (mkKey "k1" "pem1"));
    [reflexivity | reflexivity | discriminate | reflexivity | reflexivity | reflexivity
     | reflexivity].
Defined.

(** C1, as the specification states it, fails: a namespace claim that is an
    array (not a mapping) is accepted when the tenant key is an index of it
    and the element there is the allowed tenant. *)
Lemma isTenantAllowed_mapping_counterexample :
  ~ (forall (cfg : Config) (claims : list (string * JsValue)),
       jwtNamespace cfg <> "" -> jwtAllowedTenantKey cfg <> "" -> jwtAllowedTenant cfg <> "" ->
       (isTenantAllowed cfg (JObj claims) = inr true <-> tenantClaimMatches cfg claims)).
Proof.
  intros H.
  specialize (H Fixture.cfgIndex [("org", JArr [JStr "acme"])]).
  destruct H as [H _]; try discriminate.
  destruct (H eq_refl) as (props & [Hin|[]] & _). discriminate Hin.
Qed.

(** The same with a string under the namespace key: its code units are its
    entries. *)
Example isTenantAllowed_string_value :
  isTenantAllowed
    {| jwtAuthHeader := "authorization"; jwtAuthCookie := ""; jwksUri := "u";
       jwtHeaderValuePrefix := ""; jwtIssuer := "";
       jwtNamespace := "org"; jwtAllowedTenantKey := "1"; jwtAllowedTenant := "b" |}
    (JObj [("org", JStr "abc")]) = inr true.
Proof. reflexivity. Qed.

(** A null under the namespace key makes the check throw instead of
    answering. *)
Example isTenantAllowed_null_value :
  isTenantAllowed Fixture.cfg (Fixture.claimsOf "null") = inl TypeError
  /\ Fixture.handle (Some "Bearer k1.null.pem1")
     = mkRun [EvJwks "https://idp.example/jwks.json";
              EvVerify "k1.null.pem1" (jwtVerifyOptions Fixture.cfg);
              EvGetSigningKey 0 "k1";
              EvFetch "https://idp.example/jwks.json" "k1";
              EvKeyCallback None (Some "pem1")]
             [mkClient "https://idp.example/jwks.json" {[ "k1" := mkKey "k1" "pem1" ]}]
             (inl TypeError).
Proof. split; reflexivity. Qed.

(** C1, amended: with the three values set and no null under the namespace
    key, [isTenantAllowed] answers, and answers true exactly when the claim
    set has an entry named by the namespace key among whose own entries (the
    entries of a mapping, the index and element pairs of an array, the index
    and code unit pairs of a string) there is one named by the tenant key
    whose value is the allowed tenant, as a string and exactly. Without the
    namespace claim, or with a number or a boolean under it, the answer is
    false; and on false the gate rejects with "Tenant not allowed". *)
Theorem isTenantAllowed_entries (cfg : Config) (claims : list (string * JsValue)) :
  jwtNamespace cfg <> "" -> jwtAllowedTenantKey cfg <> "" -> jwtAllowedTenant cfg <> "" ->
  (forall v, In (jwtNamespace cfg, v) claims -> v <> JNull /\ v <> JUndefined) ->
  exists b,
    isTenantAllowed cfg (JObj claims) = inr b
    /\ (b = true <->
        exists v inner,
          In (jwtNamespace cfg, v) claims
          /\ Object_entries v = inr inner
          /\ In (jwtAllowedTenantKey cfg, JStr (jwtAllowedTenant cfg)) inner)
    /\ ((forall v, In (jwtNamespace cfg, v) claims ->
           match v with JBool _ | JNum _ => True | _ => False end)
        -> b = false)
    /\ (b = false ->
        forall st, verifyCallback cfg (inr (JObj claims)) st
                   = mkRun [EvReject "Tenant not allowed"] st (inr tt)).
Proof.
  intros H1 H2 H3 Hnn.
  destruct (namespaceLoop_total cfg claims Hnn) as (b & Hb & Hiff).
  assert (E : isTenantAllowed cfg (JObj claims) = inr b).
  { unfold isTenantAllowed. rewrite (tenant_check_configured cfg H1 H2 H3). exact Hb. }
  exists b. split; [exact E|]. split; [exact Hiff|]. split.
  - intros Hflat. destruct b; [|reflexivity].
    destruct (proj1 Hiff eq_refl) as (v & inner & Hin & Hent & Hmem).
    specialize (Hflat v Hin).
    destruct v; try contradiction; simpl in Hent; inversion Hent; subst inner;
      destruct Hmem.
  - intros Hf st. subst b. rewrite verifyCallback_cases, E. reflexivity.
Qed.

Lemma isTenantAllowed_entries_witness :
  exists b,
    isTenantAllowed Fixture.cfg
      (JObj [("sub", JStr "u1"); ("org", JObj [("tenant", JStr "acme")])]) = inr b
    /\ (b = true <->
        exists v inner,
          In ("org", v) [("sub", JStr "u1"); ("org", JObj [("tenant", JStr "acme")])]
          /\ Object_entries v = inr inner
          /\ In ("tenant", JStr "acme") inner)
    /\ ((forall v, In ("org", v) [("sub", JStr "u1"); ("org", JObj [("tenant", JStr "acme")])] ->
           match v with JBool _ | JNum _ => True | _ => False end)
        -> b = false)
    /\ (b = false ->
        forall st,
          verifyCallback Fixture.cfg
            (inr (JObj [("sub", JStr "u1"); ("org", JObj [("tenant", JStr "acme")])])) st
          = mkRun [EvReject "Tenant not allowed"] st (inr tt)).
Proof.
  apply (isTenantAllowed_entries Fixture.cfg
           [("sub", JStr "u1"); ("org", JObj [("tenant", JStr "acme")])]);
    [discriminate | discriminate | discriminate |].
  intros v [H|[H|[]]]; inversion H; split; discriminate.
Defined.

(** ** Verification *)

(** C10: a token made of white space only (a single space, say) is not a
    missing token: it goes through prefix stripping and into [jwt.verify],
    which refuses it, and the request is rejected with "Invalid token: "
    followed by the library's message; no key is looked up. *)
Theorem blank_token_invalid
    (jwtLib : Jsonwebtoken) (jwksLib : JwksRsa) (cfg : Config)
    (authIgnoreRegex : string -> bool) (req : Request) (st : Store) (t : string) :
  refusesBlank jwtLib ->
  authIgnoreRegex (url req) = false ->
  extractToken cfg req = Some t ->
  t <> "" ->
  JsString.allWhiteSpace t = true ->
  exists message,
    jwt_decode jwtLib (stripPrefix cfg t) = inl message
    /\ middleware jwtLib jwksLib cfg authIgnoreRegex req st
       = mkRun [EvJwks (jwksUri cfg);
                EvVerify (stripPrefix cfg t) (jwtVerifyOptions cfg);
                EvReject ("Invalid token: " +:+ message)]
               (st ++ [mkClient (jwksUri cfg) ∅]) (inr tt).
Proof.
  intros Hlib Hex Htok Hne Hws.
  assert (Hws' : JsString.allWhiteSpace (stripPrefix cfg t) = true).
  { unfold stripPrefix.
    destruct (negb (JsString.eqb (jwtHeaderValuePrefix cfg) "")
              && JsString.startsWith t (jwtHeaderValuePrefix cfg)); [|exact Hws].
    rewrite allWhiteSpace_trimStart; [reflexivity|].
    now apply allWhiteSpace_replace. }
  destruct (Hlib _ Hws') as [message Hm].
  exists message. split; [exact Hm|].
  now apply run_decode_failure.
Qed.

Lemma blank_token_invalid_witness :
  exists message,
    jwt_decode Fixture.jwtLib (stripPrefix Fixture.cfg " ") = inl message
    /\ middleware Fixture.jwtLib Fixture.jwksLib Fixture.cfg Fixture.ignoreRegex
         (Fixture.request (Some " ")) []
       = mkRun [EvJwks (jwksUri Fixture.cfg);
                EvVerify (stripPrefix Fixture.cfg " ") (jwtVerifyOptions Fixture.cfg);
                EvReject ("Invalid token: " +:+ message)]
               ([] ++ [mkClient (jwksUri Fixture.cfg) ∅]) (inr tt).
Proof.
  apply (blank_token_invalid Fixture.jwtLib Fixture.jwksLib Fixture.cfg
           Fixture.ignoreRegex (Fixture.request (Some " ")) [] " ");
    [exact fixture_refuses_blank | reflexivity | reflexivity | discriminate | reflexivity].
Defined.

(** C5: the options handed to [jwt.verify] never ask it to ignore
    expiration, whatever the configuration; so, the library refusing expired
    tokens, a request that is not exempt and carries an expired token is
    never handed to [next] and is answered with a rejection, whatever the
    key lookup yields. *)
Theorem expired_token_never_admitted
    (jwtLib : Jsonwebtoken) (jwksLib : JwksRsa) (cfg : Config)
    (authIgnoreRegex : string -> bool) (expired : string -> bool)
    (req : Request) (st : Store) (t : string) :
  enforcesExpiration jwtLib expired ->
  authIgnoreRegex (url req) = false ->
  extractToken cfg req = Some t ->
  t <> "" ->
  expired (stripPrefix cfg t) = true ->
  ignoreExpiration (jwtVerifyOptions cfg) = false
  /\ ~ In EvNext (events (middleware jwtLib jwksLib cfg authIgnoreRegex req st))
  /\ exists message,
       In (EvReject message) (events (middleware jwtLib jwksLib cfg authIgnoreRegex req st)).
Proof.
  intros Hlib Hex Htok Hne Hexp. split; [reflexivity|].
  destruct (jwt_decode jwtLib (stripPrefix cfg t)) as [m|hdr] eqn:Hd.
  - rewrite (run_decode_failure jwtLib jwksLib cfg authIgnoreRegex req st t Hex Htok Hne m Hd).
    simpl. split; [intuition discriminate | eauto].
  - destruct (kidMissing hdr) eqn:Hk.
    + rewrite (run_no_kid jwtLib jwksLib cfg authIgnoreRegex req st t Hex Htok Hne hdr Hd Hk).
      simpl. split; [intuition discriminate | eauto].
    + destruct (jwks_fetch jwksLib (jwksUri cfg) (default "" (kid hdr))) as [err|key] eqn:Hf.
      * rewrite (run_key_error jwtLib jwksLib cfg authIgnoreRegex req st t
                   Hex Htok Hne hdr err Hd Hk Hf).
        destruct (Hlib (stripPrefix cfg t) None (jwtVerifyOptions cfg) Hexp eq_refl) as [m Hm].
        rewrite Hm, verifyCallback_cases. simpl.
        split; [intuition discriminate | eauto 10].
      * rewrite (run_key_found jwtLib jwksLib cfg authIgnoreRegex req st t
                   Hex Htok Hne hdr key Hd Hk Hf).
        destruct (Hlib (stripPrefix cfg t) (Some (publicKey key)) (jwtVerifyOptions cfg)
                    Hexp eq_refl) as [m Hm].
        rewrite Hm, verifyCallback_cases. simpl.
        split; [intuition discriminate | eauto 10].
Qed.

Lemma expired_token_never_admitted_witness :
  ignoreExpiration (jwtVerifyOptions Fixture.cfg) = false
  /\ ~ In EvNext (events (Fixture.handle (Some "Bearer k1.expired.pem1")))
  /\ exists message,
       In (EvReject message) (events (Fixture.handle (Some "Bearer k1.expired.pem1"))).
Proof.
  apply (expired_token_never_admitted Fixture.jwtLib Fixture.jwksLib Fixture.cfg
           Fixture.ignoreRegex Fixture.expired
           (Fixture.request (Some "Bearer k1.expired.pem1")) []
           "Bearer k1.expired.pem1");
    [exact fixture_enforces_expiration | reflexivity | reflexivity | discriminate | reflexivity].
Defined.

(** ** Key resolution *)

(** Within one client the cache works: a key the client has resolved is
    answered without a download. *)
Lemma getSigningKey_cache_hit
    (jwksLib : JwksRsa) (st : Store) (client : nat) (c : JwksClient)
    (k : string) (key : SigningKey)
    (cb : option string -> option SigningKey -> Js unit) :
  st !! client = Some c ->
  clientCache c !! k = Some key ->
  getSigningKey jwksLib client k cb st
  = after [EvGetSigningKey client k] (cb None (Some key) st).
Proof.
  intros Hc Hk. unfold getSigningKey, bind, emit, getStore. simpl.
  rewrite Hc. simpl. rewrite Hk. reflexivity.
Qed.

(** A request whose token names a key costs one download of the key set,
    on whatever store it starts. *)
Lemma run_fetch_once
    (jwtLib : Jsonwebtoken) (jwksLib : JwksRsa) (cfg : Config)
    (authIgnoreRegex : string -> bool) (req : Request) (st : Store)
    (t : string) (hdr : JwtHeader) (k : string) :
  authIgnoreRegex (url req) = false ->
  extractToken cfg req = Some t ->
  t <> "" ->
  jwt_decode jwtLib (stripPrefix cfg t) = inr hdr ->
  kid hdr = Some k ->
  k <> "" ->
  fetchCount k (events (middleware jwtLib jwksLib cfg authIgnoreRegex req st)) = 1.
Proof.
  intros Hex Htok Hne Hd Hkid Hk.
  assert (Hm : kidMissing hdr = false).
  { unfold kidMissing. rewrite Hkid. now rewrite (truthy_nonempty k Hk). }
  destruct (jwks_fetch jwksLib (jwksUri cfg) (default "" (kid hdr))) as [err|key] eqn:Hf.
  - rewrite (run_key_error jwtLib jwksLib cfg authIgnoreRegex req st t
               Hex Htok Hne hdr err Hd Hm Hf).
    unfold after. cbn [events]. rewrite fetchCount_app, verifyCallback_no_fetch.
    rewrite Hkid. unfold fetchCount. simpl.
    unfold JsString.eqb. rewrite String.eqb_refl. reflexivity.
  - rewrite (run_key_found jwtLib jwksLib cfg authIgnoreRegex req st t
               Hex Htok Hne hdr key Hd Hm Hf).
    unfold after. cbn [events]. rewrite fetchCount_app, verifyCallback_no_fetch.
    rewrite Hkid. unfold fetchCount. simpl.
    unfold JsString.eqb. rewrite String.eqb_refl. reflexivity.
Qed.

(** C2 does not hold of the handler: it builds its JWKS client, and with it
    an empty cache, anew for every request, so each of [n] requests in a row
    for the same kid downloads the key set: [n] downloads, not one. *)
Theorem jwks_client_fetches_per_request
    (jwtLib : Jsonwebtoken) (jwksLib : JwksRsa) (cfg : Config)
    (authIgnoreRegex : string -> bool) (req : Request) (st : Store)
    (t : string) (hdr : JwtHeader) (k : string) (n : nat) :
  authIgnoreRegex (url req) = false ->
  extractToken cfg req = Some t ->
  t <> "" ->
  jwt_decode jwtLib (stripPrefix cfg t) = inr hdr ->
  kid hdr = Some k ->
  k <> "" ->
  fetchCount k (fst (serve jwtLib jwksLib cfg authIgnoreRegex (repeat req n) st)) = n.
Proof.
  intros Hex Htok Hne Hd Hkid Hk. revert st.
  induction n as [|n IH]; intros st; [reflexivity|].
  simpl.
  destruct (serve jwtLib jwksLib cfg authIgnoreRegex (repeat req n)
              (store (middleware jwtLib jwksLib cfg authIgnoreRegex req st)))
    as [evs st'] eqn:Hs.
  simpl. rewrite fetchCount_app.
  rewrite (run_fetch_once jwtLib jwksLib cfg authIgnoreRegex req st t hdr k
             Hex Htok Hne Hd Hkid Hk).
  specialize (IH (store (middleware jwtLib jwksLib cfg authIgnoreRegex req st))).
  rewrite Hs in IH. simpl in IH. now rewrite IH.
Qed.

Lemma jwks_client_fetches_per_request_witness :
  fetchCount "k1"
    (fst (serve Fixture.jwtLib Fixture.jwksLib Fixture.cfg Fixture.ignoreRegex
            (repeat (Fixture.request (Some "Bearer k1.acme.pem1")) 2) [])) = 2.
Proof.
  apply (jwks_client_fetches_per_request Fixture.jwtLib Fixture.jwksLib Fixture.cfg
           Fixture.ignoreRegex (Fixture.request (Some "Bearer k1.acme.pem1")) []
           "Bearer k1.acme.pem1" (mkHeader (Some "k1")) "k1" 2);
    [reflexivity | reflexivity | discriminate | reflexivity | reflexivity | discriminate].
Defined.

(** C3 does not hold of the key lookup: when the lookup of the key fails,
    the callback of [jwt.verify] is called with the error, which sends a
    rejection, and then called again with no error and no key, so that
    verification goes on with an undefined key and ends in a second
    outcome. *)
Theorem key_lookup_error_falls_through
    (jwtLib : Jsonwebtoken) (jwksLib : JwksRsa) (cfg : Config)
    (authIgnoreRegex : string -> bool) (req : Request) (st : Store)
    (t : string) (hdr : JwtHeader) (k err : string) :
  authIgnoreRegex (url req) = false ->
  extractToken cfg req = Some t ->
  t <> "" ->
  jwt_decode jwtLib (stripPrefix cfg t) = inr hdr ->
  kid hdr = Some k ->
  k <> "" ->
  jwks_fetch jwksLib (jwksUri cfg) k = inl err ->
  events (middleware jwtLib jwksLib cfg authIgnoreRegex req st)
  = [EvJwks (jwksUri cfg);
     EvVerify (stripPrefix cfg t) (jwtVerifyOptions cfg);
     EvGetSigningKey (length st) k;
     EvFetch (jwksUri cfg) k;
     EvKeyCallback (Some err) None;
     EvReject ("Invalid token: " +:+ jwt_key_error jwtLib err);
     EvKeyCallback None None]
    ++ events (verifyCallback cfg
                 (jwt_check jwtLib (stripPrefix cfg t) None (jwtVerifyOptions cfg))
                 (st ++ [mkClient (jwksUri cfg) ∅])).
Proof.
  intros Hex Htok Hne Hd Hkid Hk Hf.
  assert (Hm : kidMissing hdr = false).
  { unfold kidMissing. rewrite Hkid. now rewrite (truthy_nonempty k Hk). }
  assert (Hf' : jwks_fetch jwksLib (jwksUri cfg) (default "" (kid hdr)) = inl err)
    by now rewrite Hkid.
  rewrite (run_key_error jwtLib jwksLib cfg authIgnoreRegex req st t
             Hex Htok Hne hdr err Hd Hm Hf').
  rewrite Hkid. reflexivity.
Qed.

Lemma key_lookup_error_falls_through_witness :
  events (Fixture.handle (Some "Bearer k2.acme.pem1"))
  = [EvJwks (jwksUri Fixture.cfg);
     EvVerify (stripPrefix Fixture.cfg "Bearer k2.acme.pem1") (jwtVerifyOptions Fixture.cfg);
     EvGetSigningKey (length ([] : Store)) "k2";
     EvFetch (jwksUri Fixture.cfg) "k2";
     EvKeyCallback (Some "Unable to find a signing key that matches the kid") None;
     EvReject ("Invalid token: " +:+
               jwt_key_error Fixture.jwtLib "Unable to find a signing key that matches the kid");
     EvKeyCallback None None]
    ++ events (verifyCallback Fixture.cfg
                 (jwt_check Fixture.jwtLib (stripPrefix Fixture.cfg "Bearer k2.acme.pem1")
                    None (jwtVerifyOptions Fixture.cfg))
                 ([] ++ [mkClient (jwksUri Fixture.cfg) ∅])).
Proof.
  apply (key_lookup_error_falls_through Fixture.jwtLib Fixture.jwksLib Fixture.cfg
           Fixture.ignoreRegex (Fixture.request (Some "Bearer k2.acme.pem1")) []
           "Bearer k2.acme.pem1" (mkHeader (Some "k2")) "k2"
           "Unable to find a signing key that matches the kid");
    [reflexivity | reflexivity | discriminate | reflexivity | reflexivity | discriminate
     | reflexivity].
Defined.

(** At that input the request is answered twice. *)
Example key_lookup_error_two_rejections :
  List.filter isDecision (events (Fixture.handle (Some "Bearer k2.acme.pem1")))
  = [EvReject "Invalid token: error in secret or public key callback: Unable to find a signing key that matches the kid";
     EvReject "Invalid token: secret or public key must be provided"].
Proof. reflexivity. Qed.

(** ** Errors of a request *)




(** * Further properties of the handler *)

Lemma kidMissing_false (hdr : JwtHeader) :
  kidMissing hdr = false -> exists k, kid hdr = Some k /\ k <> "".
Proof.
  unfold kidMissing. destruct (kid hdr) as [k|]; [|discriminate].
  intros H. exists k. split; [reflexivity|]. intros ->. discriminate H.
Qed.

(** Every run of the handler is one of the six of [RunShape]. *)
Lemma middleware_shape
    (jwtLib : Jsonwebtoken) (jwksLib : JwksRsa) (cfg : Config)
    (authIgnoreRegex : string -> bool) (req : Request) (st : Store) :
  RunShape jwtLib jwksLib cfg authIgnoreRegex req st
    (middleware jwtLib jwksLib cfg authIgnoreRegex req st).
Proof.
  destruct (authIgnoreRegex (url req)) eqn:Hex.
  { replace (middleware jwtLib jwksLib cfg authIgnoreRegex req st)
      with (mkRun [EvNext] st (inr tt : Exn + unit)).
    - now apply ShapeExempt.
    - unfold middleware. now rewrite Hex. }
  destruct (extractToken cfg req) as [t|] eqn:Htok.
  2:{ rewrite (run_missing_token jwtLib jwksLib cfg authIgnoreRegex req st Hex
                 (or_introl Htok)).
      apply ShapeMissing; auto. }
  destruct (String.eqb_spec t "") as [->|Hne].
  { rewrite (run_missing_token jwtLib jwksLib cfg authIgnoreRegex req st Hex
               (or_intror Htok)).
    apply ShapeMissing; auto. }
  destruct (jwt_decode jwtLib (stripPrefix cfg t)) as [m|hdr] eqn:Hd.
  { rewrite (run_decode_failure jwtLib jwksLib cfg authIgnoreRegex req st t Hex Htok Hne m Hd).
    now apply ShapeRefused. }
  destruct (kidMissing hdr) eqn:Hk.
  { rewrite (run_no_kid jwtLib jwksLib cfg authIgnoreRegex req st t Hex Htok Hne hdr Hd Hk).
    now apply ShapeNoKid with (hdr := hdr). }
  destruct (kidMissing_false hdr Hk) as (k & Hkid & Hkne).
  destruct (jwks_fetch jwksLib (jwksUri cfg) (default "" (kid hdr))) as [err|key] eqn:Hf.
  - rewrite (run_key_error jwtLib jwksLib cfg authIgnoreRegex req st t
               Hex Htok Hne hdr err Hd Hk Hf).
    rewrite Hkid in *. simpl in *. now apply ShapeKeyError with (hdr := hdr).
  - rewrite (run_key_found jwtLib jwksLib cfg authIgnoreRegex req st t
               Hex Htok Hne hdr key Hd Hk Hf).
    rewrite Hkid in *. simpl in *. now apply ShapeKeyFound with (hdr := hdr).
Qed.

Ltac no_such_event H :=
  simpl in H; repeat (destruct H as [H|H]; [discriminate H|]); try contradiction.

(** ** Set-up *)

(** X1: The set-up installs the handler exactly when a header name or a cookie
    name is configured and the key set address is not empty; the missing
    token source is reported before the missing address, and what is
    installed is [middleware] for that configuration. *)
Theorem setup_installs_iff
    (jwtLib : Jsonwebtoken) (jwksLib : JwksRsa) (cfg : Config)
    (authIgnoreRegex : string -> bool) :
  (jwtAuthHeader cfg = "" /\ jwtAuthCookie cfg = "" ->
     setupExternalJWTAuth jwtLib jwksLib cfg authIgnoreRegex
     = inl "JWT auth is activated but no request header or cookie was defined. Please set one!")
  /\ (jwtAuthHeader cfg <> "" \/ jwtAuthCookie cfg <> "" ->
      jwksUri cfg = "" ->
      setupExternalJWTAuth jwtLib jwksLib cfg authIgnoreRegex
      = inl "JWT auth is activated but no JWK Set URI was defined. Please set one!")
  /\ (((jwtAuthHeader cfg <> "" \/ jwtAuthCookie cfg <> "") /\ jwksUri cfg <> "")
      <-> setupExternalJWTAuth jwtLib jwksLib cfg authIgnoreRegex
          = inr (middleware jwtLib jwksLib cfg authIgnoreRegex))
  /\ (forall handler,
        setupExternalJWTAuth jwtLib jwksLib cfg authIgnoreRegex = inr handler ->
        handler = middleware jwtLib jwksLib cfg authIgnoreRegex).
Proof.
  unfold setupExternalJWTAuth, JsString.eqb.
  destruct (String.eqb_spec (jwtAuthHeader cfg) "") as [Eh|Eh];
    destruct (String.eqb_spec (jwtAuthCookie cfg) "") as [Ec|Ec];
    destruct (String.eqb_spec (jwksUri cfg) "") as [Eu|Eu]; simpl;
    repeat split; try tauto; try discriminate; try congruence;
    try (intros [[?|?] ?]; congruence); try (intros; tauto);
    try (intros ? H; now inversion H).
Qed.

Lemma setup_installs_iff_witness :
  setupExternalJWTAuth Fixture.jwtLib Fixture.jwksLib Fixture.cfg Fixture.ignoreRegex
  = inr (middleware Fixture.jwtLib Fixture.jwksLib Fixture.cfg Fixture.ignoreRegex).
Proof.
  apply (proj1 (proj1 (proj2 (proj2
           (setup_installs_iff Fixture.jwtLib Fixture.jwksLib Fixture.cfg Fixture.ignoreRegex))))).
  split; [left; discriminate | discriminate].
Defined.

(** ** Exempt requests *)

(** X3: A request whose URL the exemption pattern matches is handed to [next]
    and nothing else happens: no header or cookie is read, no client built,
    nothing verified, whatever the libraries and whatever the request
    carries. *)
Theorem exempt_request_passes
    (jwtLib : Jsonwebtoken) (jwksLib : JwksRsa) (cfg : Config)
    (authIgnoreRegex : string -> bool) (req : Request) (st : Store) :
  authIgnoreRegex (url req) = true ->
  middleware jwtLib jwksLib cfg authIgnoreRegex req st = mkRun [EvNext] st (inr tt).
Proof.
  intros H. unfold middleware. now rewrite H.
Qed.

Lemma exempt_request_passes_witness :
  middleware Fixture.jwtLib Fixture.jwksLib Fixture.cfg Fixture.ignoreRegex
    (mkRequest "/healthz/readiness" (fun _ => Some "Bearer not.a.token") None) []
  = mkRun [EvNext] [] (inr tt).
Proof.
  apply exempt_request_passes. reflexivity.
Defined.

(** ** What is handed to [jwt.verify] *)

(** X4: [jwt.verify] is called at most once for a request: not at all when the
    request is exempt or has no token, and otherwise once, with the token as
    prefix stripping left it and with options that never ignore expiration
    and name an issuer exactly when one is configured. *)
Theorem verify_called_once
    (jwtLib : Jsonwebtoken) (jwksLib : JwksRsa) (cfg : Config)
    (authIgnoreRegex : string -> bool) (req : Request) (st : Store) :
  (List.filter isVerify (events (middleware jwtLib jwksLib cfg authIgnoreRegex req st)) = []
   /\ (authIgnoreRegex (url req) = true
       \/ extractToken cfg req = None \/ extractToken cfg req = Some ""))
  \/ (exists t,
        authIgnoreRegex (url req) = false
        /\ extractToken cfg req = Some t /\ t <> ""
        /\ List.filter isVerify (events (middleware jwtLib jwksLib cfg authIgnoreRegex req st))
           = [EvVerify (stripPrefix cfg t)
                {| issuer := if JsString.eqb (jwtIssuer cfg) "" then None
                             else Some (jwtIssuer cfg);
                   ignoreExpiration := false |}]).
Proof.
  assert (Hopt : jwtVerifyOptions cfg
                 = {| issuer := if JsString.eqb (jwtIssuer cfg) "" then None
                                else Some (jwtIssuer cfg);
                      ignoreExpiration := false |}).
  { unfold jwtVerifyOptions. now destruct (JsString.eqb (jwtIssuer cfg) ""). }
  rewrite <- Hopt.
  destruct (middleware_shape jwtLib jwksLib cfg authIgnoreRegex req st).
  - left. split; [reflexivity | auto].
  - left. split; [reflexivity | auto].
  - right. exists t. repeat split; auto.
  - right. exists t. repeat split; auto.
  - right. exists t. repeat split; auto.
    unfold after. cbn [events]. rewrite List.filter_app, verifyCallback_cases.
    destruct (jwt_check jwtLib (stripPrefix cfg t) None (jwtVerifyOptions cfg)) as [m|d];
      [reflexivity|].
    destruct (isTenantAllowed cfg d) as [e|[|]]; reflexivity.
  - right. exists t. repeat split; auto.
    unfold after. cbn [events]. rewrite List.filter_app, verifyCallback_cases.
    destruct (jwt_check jwtLib (stripPrefix cfg t) (Some (publicKey key))
                (jwtVerifyOptions cfg)) as [m|d]; [reflexivity|].
    destruct (isTenantAllowed cfg d) as [e|[|]]; reflexivity.
Qed.

(** ** When a request is let through *)

(** X5: [next] is reached only for an exempt request, or for a token whose
    header names a key and which [jwt.verify] accepted with the key that
    [getKey] handed over last, the tenant check then answering true. The key
    handed over last is the one that was found, or undefined when the lookup
    failed. *)
Theorem next_only_when_verified
    (jwtLib : Jsonwebtoken) (jwksLib : JwksRsa) (cfg : Config)
    (authIgnoreRegex : string -> bool) (req : Request) (st : Store) :
  In EvNext (events (middleware jwtLib jwksLib cfg authIgnoreRegex req st)) ->
  authIgnoreRegex (url req) = true
  \/ exists t hdr k decoded,
       extractToken cfg req = Some t /\ t <> ""
       /\ jwt_decode jwtLib (stripPrefix cfg t) = inr hdr
       /\ kid hdr = Some k /\ k <> ""
       /\ jwt_check jwtLib (stripPrefix cfg t) (keyHandedOver jwksLib cfg k)
            (jwtVerifyOptions cfg) = inr decoded
       /\ isTenantAllowed cfg decoded = inr true.
Proof.
  intros Hin.
  destruct (middleware_shape jwtLib jwksLib cfg authIgnoreRegex req st).
  - now left.
  - no_such_event Hin.
  - no_such_event Hin.
  - no_such_event Hin.
  - right. unfold after in Hin. cbn [events] in Hin.
    apply in_app_or in Hin as [Hin|Hin]; [no_such_event Hin|].
    rewrite verifyCallback_cases in Hin.
    destruct (jwt_check jwtLib (stripPrefix cfg t) None (jwtVerifyOptions cfg))
      as [m|d] eqn:Hc; [no_such_event Hin|].
    destruct (isTenantAllowed cfg d) as [e|[|]] eqn:Ha; try no_such_event Hin.
    exists t, hdr, k, d. unfold keyHandedOver. rewrite H5. auto 10.
  - right. unfold after in Hin. cbn [events] in Hin.
    apply in_app_or in Hin as [Hin|Hin]; [no_such_event Hin|].
    rewrite verifyCallback_cases in Hin.
    destruct (jwt_check jwtLib (stripPrefix cfg t) (Some (publicKey key))
                (jwtVerifyOptions cfg)) as [m|d] eqn:Hc; [no_such_event Hin|].
    destruct (isTenantAllowed cfg d) as [e|[|]] eqn:Ha; try no_such_event Hin.
    exists t, hdr, k, d. unfold keyHandedOver. rewrite H5. auto 10.
Qed.

Lemma next_only_when_verified_witness :
  Fixture.ignoreRegex (url (Fixture.request (Some "Bearer k1.acme.pem1"))) = true
  \/ exists t hdr k decoded,
       extractToken Fixture.cfg (Fixture.request (Some "Bearer k1.acme.pem1")) = Some t
       /\ t <> ""
       /\ jwt_decode Fixture.jwtLib (stripPrefix Fixture.cfg t) = inr hdr
       /\ kid hdr = Some k /\ k <> ""
       /\ jwt_check Fixture.jwtLib (stripPrefix Fixture.cfg t)
            (keyHandedOver Fixture.jwksLib Fixture.cfg k)
            (jwtVerifyOptions Fixture.cfg) = inr decoded
       /\ isTenantAllowed Fixture.cfg decoded = inr true.
Proof.
  apply (next_only_when_verified Fixture.jwtLib Fixture.jwksLib Fixture.cfg
           Fixture.ignoreRegex (Fixture.request (Some "Bearer k1.acme.pem1")) []).
  vm_compute. auto 10.
Defined.

(** X6: A request is answered (rejected or handed on) at most twice, and twice
    only when the lookup of the key failed; a run that ends without an
    exception has answered at least once. *)
Theorem decisions_per_request
    (jwtLib : Jsonwebtoken) (jwksLib : JwksRsa) (cfg : Config)
    (authIgnoreRegex : string -> bool) (req : Request) (st : Store) :
  length (List.filter isDecision
            (events (middleware jwtLib jwksLib cfg authIgnoreRegex req st))) <= 2
  /\ (result (middleware jwtLib jwksLib cfg authIgnoreRegex req st) = inr tt ->
      1 <= length (List.filter isDecision
                     (events (middleware jwtLib jwksLib cfg authIgnoreRegex req st))))
  /\ (length (List.filter isDecision
                (events (middleware jwtLib jwksLib cfg authIgnoreRegex req st))) = 2 ->
      exists t hdr k err,
        extractToken cfg req = Some t
        /\ jwt_decode jwtLib (stripPrefix cfg t) = inr hdr
        /\ kid hdr = Some k
        /\ jwks_fetch jwksLib (jwksUri cfg) k = inl err).
Proof.
  destruct (middleware_shape jwtLib jwksLib cfg authIgnoreRegex req st);
    try (simpl; repeat split; [lia | lia | discriminate]).
  - unfold after. cbn [events result]. rewrite List.filter_app, length_app, verifyCallback_cases.
    destruct (jwt_check jwtLib (stripPrefix cfg t) None (jwtVerifyOptions cfg)) as [m|d].
    + simpl. repeat split; [lia | lia | eauto 10].
    + destruct (isTenantAllowed cfg d) as [e|[|]]; simpl;
        (repeat split; [lia | lia | eauto 10]).
  - unfold after. cbn [events result]. rewrite List.filter_app, length_app, verifyCallback_cases.
    destruct (jwt_check jwtLib (stripPrefix cfg t) (Some (publicKey key))
                (jwtVerifyOptions cfg)) as [m|d].
    + simpl. repeat split; [lia | lia | discriminate].
    + destruct (isTenantAllowed cfg d) as [e|[|]]; simpl;
        (repeat split; [lia | try lia; try discriminate | discriminate]).
Qed.

(** ** The network and the client objects *)

(** X7: The key set is downloaded only for a request that is not exempt and
    whose token header names a key: the download is for that kid, from the
    configured address, and there is one of them. *)
Theorem fetch_only_for_token_kid
    (jwtLib : Jsonwebtoken) (jwksLib : JwksRsa) (cfg : Config)
    (authIgnoreRegex : string -> bool) (req : Request) (st : Store)
    (uri k : string) :
  In (EvFetch uri k) (events (middleware jwtLib jwksLib cfg authIgnoreRegex req st)) ->
  uri = jwksUri cfg
  /\ authIgnoreRegex (url req) = false
  /\ (exists t hdr,
        extractToken cfg req = Some t /\ t <> ""
        /\ jwt_decode jwtLib (stripPrefix cfg t) = inr hdr
        /\ kid hdr = Some k /\ k <> "")
  /\ fetchCount k (events (middleware jwtLib jwksLib cfg authIgnoreRegex req st)) = 1.
Proof.
  intros Hin.
  assert (Hcb : forall o st',
            ~ In (EvFetch uri k) (events (verifyCallback cfg o st'))).
  { intros o st' H. rewrite verifyCallback_cases in H.
    destruct o as [m|d]; [no_such_event H|].
    destruct (isTenantAllowed cfg d) as [e|[|]]; no_such_event H. }
  destruct (middleware_shape jwtLib jwksLib cfg authIgnoreRegex req st) as
    [ | | | | t hdr k' err Hex Htok Hne Hd Hkid Hk Hf
      | t hdr k' key Hex Htok Hne Hd Hkid Hk Hf ].
  - no_such_event Hin.
  - no_such_event Hin.
  - no_such_event Hin.
  - no_such_event Hin.
  - unfold after in *. cbn [events] in *.
    apply in_app_or in Hin as [Hin|Hin]; [|now apply Hcb in Hin].
    simpl in Hin.
    destruct Hin as [Hin|[Hin|[Hin|[Hin|Hin]]]]; try discriminate Hin;
      [|no_such_event Hin].
    inversion Hin; subst uri k'. repeat split; auto.
    + exists t, hdr. auto.
    + rewrite fetchCount_app, verifyCallback_no_fetch.
      unfold fetchCount. simpl. unfold JsString.eqb. now rewrite String.eqb_refl.
  - unfold after in *. cbn [events] in *.
    apply in_app_or in Hin as [Hin|Hin]; [|now apply Hcb in Hin].
    simpl in Hin.
    destruct Hin as [Hin|[Hin|[Hin|[Hin|Hin]]]]; try discriminate Hin;
      [|no_such_event Hin].
    inversion Hin; subst uri k'. repeat split; auto.
    + exists t, hdr. auto.
    + rewrite fetchCount_app, verifyCallback_no_fetch.
      unfold fetchCount. simpl. unfold JsString.eqb. now rewrite String.eqb_refl.
Qed.

Lemma fetch_only_for_token_kid_witness :
  "https://idp.example/jwks.json" = jwksUri Fixture.cfg
  /\ Fixture.ignoreRegex (url (Fixture.request (Some "Bearer k1.acme.pem1"))) = false
  /\ (exists t hdr,
        extractToken Fixture.cfg (Fixture.request (Some "Bearer k1.acme.pem1")) = Some t
        /\ t <> ""
        /\ jwt_decode Fixture.jwtLib (stripPrefix Fixture.cfg t) = inr hdr
        /\ kid hdr = Some "k1" /\ "k1" <> "")
  /\ fetchCount "k1" (events (Fixture.handle (Some "Bearer k1.acme.pem1"))) = 1.
Proof.
  apply (fetch_only_for_token_kid Fixture.jwtLib Fixture.jwksLib Fixture.cfg
           Fixture.ignoreRegex (Fixture.request (Some "Bearer k1.acme.pem1")) []
           "https://idp.example/jwks.json" "k1").
  vm_compute. auto 10.
Defined.

(** X8: The handler never touches a client object that was there before.
    For an exempt request and for one without a token the store stays as it
    was. For any other request one client for the configured address is
    added after the old ones: its cache is empty when the token is refused
    before the key is asked for, when the header has no kid and when the
    lookup of the header's kid fails, and it holds the key that was found,
    under the kid of the token's header and nothing else, when the lookup
    succeeds. *)
Theorem store_only_grows
    (jwtLib : Jsonwebtoken) (jwksLib : JwksRsa) (cfg : Config)
    (authIgnoreRegex : string -> bool) (req : Request) (st : Store) :
  (authIgnoreRegex (url req) = true
   \/ extractToken cfg req = None \/ extractToken cfg req = Some "" ->
   store (middleware jwtLib jwksLib cfg authIgnoreRegex req st) = st)
  /\ (forall t,
        authIgnoreRegex (url req) = false ->
        extractToken cfg req = Some t -> t <> "" ->
        (forall message,
           jwt_decode jwtLib (stripPrefix cfg t) = inl message ->
           store (middleware jwtLib jwksLib cfg authIgnoreRegex req st)
           = st ++ [mkClient (jwksUri cfg) ∅])
        /\ (forall hdr,
              jwt_decode jwtLib (stripPrefix cfg t) = inr hdr ->
              kidMissing hdr = true ->
              store (middleware jwtLib jwksLib cfg authIgnoreRegex req st)
              = st ++ [mkClient (jwksUri cfg) ∅])
        /\ (forall hdr k err,
              jwt_decode jwtLib (stripPrefix cfg t) = inr hdr ->
              kid hdr = Some k -> k <> "" ->
              jwks_fetch jwksLib (jwksUri cfg) k = inl err ->
              store (middleware jwtLib jwksLib cfg authIgnoreRegex req st)
              = st ++ [mkClient (jwksUri cfg) ∅])
        /\ (forall hdr k key,
              jwt_decode jwtLib (stripPrefix cfg t) = inr hdr ->
              kid hdr = Some k -> k <> "" ->
              jwks_fetch jwksLib (jwksUri cfg) k = inr key ->
              store (middleware jwtLib jwksLib cfg authIgnoreRegex req st)
              = st ++ [mkClient (jwksUri cfg) {[ k := key ]}])).
Proof.
  split.
  { intros [Hex|Hmiss].
    - unfold middleware. now rewrite Hex.
    - destruct (authIgnoreRegex (url req)) eqn:Hex.
      + unfold middleware. now rewrite Hex.
      + now rewrite (run_missing_token jwtLib jwksLib cfg authIgnoreRegex req st Hex Hmiss). }
  intros t Hex Htok Hne.
  assert (Hm : forall hdr k, kid hdr = Some k -> k <> "" -> kidMissing hdr = false).
  { intros hdr k Hkid Hk. unfold kidMissing. rewrite Hkid.
    now rewrite (truthy_nonempty k Hk). }
  split; [|split; [|split]].
  - intros m Hd.
    now rewrite (run_decode_failure jwtLib jwksLib cfg authIgnoreRegex req st t
                   Hex Htok Hne m Hd).
  - intros hdr Hd Hk.
    now rewrite (run_no_kid jwtLib jwksLib cfg authIgnoreRegex req st t
                   Hex Htok Hne hdr Hd Hk).
  - intros hdr k err Hd Hkid Hk Hf.
    assert (Hf' : jwks_fetch jwksLib (jwksUri cfg) (default "" (kid hdr)) = inl err)
      by now rewrite Hkid.
    rewrite (run_key_error jwtLib jwksLib cfg authIgnoreRegex req st t
               Hex Htok Hne hdr err Hd (Hm hdr k Hkid Hk) Hf').
    unfold after. cbn [store]. apply verifyCallback_store.
  - intros hdr k key Hd Hkid Hk Hf.
    assert (Hf' : jwks_fetch jwksLib (jwksUri cfg) (default "" (kid hdr)) = inr key)
      by now rewrite Hkid.
    rewrite (run_key_found jwtLib jwksLib cfg authIgnoreRegex req st t
               Hex Htok Hne hdr key Hd (Hm hdr k Hkid Hk) Hf').
    unfold after. cbn [store]. rewrite verifyCallback_store. now rewrite Hkid.
Qed.

Lemma store_only_grows_witness :
  store (Fixture.handle None) = []
  /\ store (Fixture.handle (Some "Bearer k2.acme.pem1"))
     = [] ++ [mkClient (jwksUri Fixture.cfg) ∅]
  /\ store (Fixture.handle (Some "Bearer k1.other.pem1"))
     = [] ++ [mkClient (jwksUri Fixture.cfg) {[ "k1" := mkKey "k1" "pem1" ]}].
Proof.
  split.
  { apply (proj1 (store_only_grows Fixture.jwtLib Fixture.jwksLib Fixture.cfg
                    Fixture.ignoreRegex (Fixture.request None) [])).
    right; left. reflexivity. }
  split.
  { destruct (proj2 (store_only_grows Fixture.jwtLib Fixture.jwksLib Fixture.cfg
                       Fixture.ignoreRegex (Fixture.request (Some "Bearer k2.acme.pem1")) [])
                "Bearer k2.acme.pem1" eq_refl eq_refl ltac:(discriminate))
      as (_ & _ & H3 & _).
    exact (H3 (mkHeader (Some "k2")) "k2"
              "Unable to find a signing key that matches the kid"
              eq_refl eq_refl ltac:(discriminate) eq_refl). }
  { destruct (proj2 (store_only_grows Fixture.jwtLib Fixture.jwksLib Fixture.cfg
                       Fixture.ignoreRegex (Fixture.request (Some "Bearer k1.other.pem1")) [])
                "Bearer k1.other.pem1" eq_refl eq_refl ltac:(discriminate))
      as (_ & _ & _ & H4).
    exact (H4 (mkHeader (Some "k1")) "k1" (mkKey "k1" "pem1")
              eq_refl eq_refl ltac:(discriminate) eq_refl). }
Defined.

(** X9: Requests do not influence each other: what a request is answered with,
    and whether its run ends in an exception, is the same on every store,
    that is, whatever requests were handled before. *)
Theorem decision_independent_of_store
    (jwtLib : Jsonwebtoken) (jwksLib : JwksRsa) (cfg : Config)
    (authIgnoreRegex : string -> bool) (req : Request) (st st' : Store) :
  List.filter isDecision (events (middleware jwtLib jwksLib cfg authIgnoreRegex req st))
  = List.filter isDecision (events (middleware jwtLib jwksLib cfg authIgnoreRegex req st'))
  /\ result (middleware jwtLib jwksLib cfg authIgnoreRegex req st)
     = result (middleware jwtLib jwksLib cfg authIgnoreRegex req st').
Proof.
  assert (Hcb : forall o s1 s2,
            events (verifyCallback cfg o s1) = events (verifyCallback cfg o s2)
            /\ result (verifyCallback cfg o s1) = result (verifyCallback cfg o s2)).
  { intros o s1 s2. rewrite !verifyCallback_cases.
    destruct o as [m|d]; [split; reflexivity|].
    destruct (isTenantAllowed cfg d) as [e|[|]]; split; reflexivity. }
  destruct (middleware_shape jwtLib jwksLib cfg authIgnoreRegex req st) as
    [ Hex | Hex Hmiss | t m Hex Htok Hne Hd | t hdr Hex Htok Hne Hd Hk
      | t hdr k err Hex Htok Hne Hd Hkid Hk Hf
      | t hdr k key Hex Htok Hne Hd Hkid Hk Hf ].
  - unfold middleware. rewrite Hex. split; reflexivity.
  - rewrite (run_missing_token jwtLib jwksLib cfg authIgnoreRegex req st' Hex Hmiss).
    split; reflexivity.
  - rewrite (run_decode_failure jwtLib jwksLib cfg authIgnoreRegex req st' t Hex Htok Hne m Hd).
    split; reflexivity.
  - rewrite (run_no_kid jwtLib jwksLib cfg authIgnoreRegex req st' t Hex Htok Hne hdr Hd Hk).
    split; reflexivity.
  - assert (Hm : kidMissing hdr = false).
    { unfold kidMissing. rewrite Hkid. now rewrite (truthy_nonempty k Hk). }
    assert (Hf' : jwks_fetch jwksLib (jwksUri cfg) (default "" (kid hdr)) = inl err)
      by now rewrite Hkid.
    rewrite (run_key_error jwtLib jwksLib cfg authIgnoreRegex req st' t
               Hex Htok Hne hdr err Hd Hm Hf').
    unfold after. cbn [events result]. rewrite !List.filter_app.
    destruct (Hcb (jwt_check jwtLib (stripPrefix cfg t) None (jwtVerifyOptions cfg))
                (st ++ [mkClient (jwksUri cfg) ∅]) (st' ++ [mkClient (jwksUri cfg) ∅]))
      as [-> ->].
    split; reflexivity.
  - assert (Hm : kidMissing hdr = false).
    { unfold kidMissing. rewrite Hkid. now rewrite (truthy_nonempty k Hk). }
    assert (Hf' : jwks_fetch jwksLib (jwksUri cfg) (default "" (kid hdr)) = inr key)
      by now rewrite Hkid.
    rewrite (run_key_found jwtLib jwksLib cfg authIgnoreRegex req st' t
               Hex Htok Hne hdr key Hd Hm Hf').
    unfold after. cbn [events result]. rewrite !List.filter_app. rewrite Hkid. cbn [default].
    destruct (Hcb (jwt_check jwtLib (stripPrefix cfg t) (Some (publicKey key))
                     (jwtVerifyOptions cfg))
                (st ++ [mkClient (jwksUri cfg) {[ k := key ]}])
                (st' ++ [mkClient (jwksUri cfg) {[ k := key ]}]))
      as [-> ->].
    split; reflexivity.
Qed.

(** ** Rejection reasons *)

(** X10: The fixed reasons are truthful: "Missing token" is sent only when no
    non-empty token was extracted, "No JWT key found" only when the token's
    header has no kid, and "Tenant not allowed" only when the token was
    verified and the tenant check, with all three values configured,
    answered false. *)
Theorem rejection_reasons_truthful
    (jwtLib : Jsonwebtoken) (jwksLib : JwksRsa) (cfg : Config)
    (authIgnoreRegex : string -> bool) (req : Request) (st : Store) :
  (In (EvReject "Missing token")
      (events (middleware jwtLib jwksLib cfg authIgnoreRegex req st)) ->
     extractToken cfg req = None \/ extractToken cfg req = Some "")
  /\ (In (EvReject "No JWT key found")
         (events (middleware jwtLib jwksLib cfg authIgnoreRegex req st)) ->
      exists t hdr,
        extractToken cfg req = Some t
        /\ jwt_decode jwtLib (stripPrefix cfg t) = inr hdr
        /\ kidMissing hdr = true)
  /\ (In (EvReject "Tenant not allowed")
         (events (middleware jwtLib jwksLib cfg authIgnoreRegex req st)) ->
      jwtNamespace cfg <> "" /\ jwtAllowedTenantKey cfg <> "" /\ jwtAllowedTenant cfg <> ""
      /\ exists t key decoded,
           extractToken cfg req = Some t
           /\ jwt_check jwtLib (stripPrefix cfg t) key (jwtVerifyOptions cfg) = inr decoded
           /\ isTenantAllowed cfg decoded = inr false).
Proof.
  assert (Hinv : forall m r, EvReject ("Invalid token: " +:+ m) = EvReject r ->
                             r <> "Missing token" /\ r <> "No JWT key found"
                             /\ r <> "Tenant not allowed").
  { intros m r H. inversion H. repeat split; discriminate. }
  assert (Hconf : forall d, isTenantAllowed cfg d = inr false ->
            jwtNamespace cfg <> "" /\ jwtAllowedTenantKey cfg <> ""
            /\ jwtAllowedTenant cfg <> "").
  { intros d Hd. unfold isTenantAllowed, JsString.eqb in Hd.
    destruct (String.eqb_spec (jwtNamespace cfg) ""); [discriminate Hd|].
    destruct (String.eqb_spec (jwtAllowedTenantKey cfg) ""); [discriminate Hd|].
    destruct (String.eqb_spec (jwtAllowedTenant cfg) ""); [discriminate Hd|].
    auto. }
  assert (Hcb : forall o st' r,
            In (EvReject r) (events (verifyCallback cfg o st')) ->
            r <> "Missing token" /\ r <> "No JWT key found"
            /\ (r = "Tenant not allowed" ->
                exists d, o = inr d /\ isTenantAllowed cfg d = inr false)).
  { intros o st' r H. rewrite verifyCallback_cases in H.
    destruct o as [m|d].
    - simpl in H. destruct H as [H|[]]. apply Hinv in H as (H1 & H2 & H3).
      repeat split; auto. intros ->. congruence.
    - destruct (isTenantAllowed cfg d) as [e|[|]] eqn:Ha; try no_such_event H.
      simpl in H. destruct H as [H|[]]. inversion H; subst r.
      repeat split; try discriminate. eauto. }
  destruct (middleware_shape jwtLib jwksLib cfg authIgnoreRegex req st) as
    [ Hex | Hex Hmiss | t m Hex Htok Hne Hd | t hdr Hex Htok Hne Hd Hk
      | t hdr k err Hex Htok Hne Hd Hkid Hk Hf
      | t hdr k key Hex Htok Hne Hd Hkid Hk Hf ].
  - split; [|split]; intros H; no_such_event H.
  - split; [auto|]. split; intros H; simpl in H; destruct H as [H|[]]; discriminate H.
  - split; [|split]; intros H; simpl in H;
      destruct H as [H|[H|[H|[]]]]; try discriminate H;
      apply Hinv in H as (H1 & H2 & H3); congruence.
  - split; [|split]; intros H; simpl in H;
      destruct H as [H|[H|[H|[]]]]; try discriminate H.
    exists t, hdr. auto.
  - unfold after. cbn [events].
    split; [|split]; intros H; apply in_app_or in H as [H|H];
      try (simpl in H;
           destruct H as [H|[H|[H|[H|[H|[H|[H|[]]]]]]]]; try discriminate H;
           apply Hinv in H as (H1 & H2 & H3); congruence);
      apply Hcb in H as (H1 & H2 & H3); try congruence.
    destruct (H3 eq_refl) as (d & Ho & Ha).
    destruct (Hconf d Ha) as (C1 & C2 & C3). repeat split; auto.
    exists t, None, d. auto.
  - unfold after. cbn [events].
    split; [|split]; intros H; apply in_app_or in H as [H|H];
      try (simpl in H;
           destruct H as [H|[H|[H|[H|[H|[]]]]]]; discriminate H);
      apply Hcb in H as (H1 & H2 & H3); try congruence.
    destruct (H3 eq_refl) as (d & Ho & Ha).
    destruct (Hconf d Ha) as (C1 & C2 & C3). repeat split; auto.
    exists t, (Some (publicKey key)), d. auto.
Qed.

Lemma rejection_reasons_truthful_witness :
  jwtNamespace Fixture.cfg <> "" /\ jwtAllowedTenantKey Fixture.cfg <> ""
  /\ jwtAllowedTenant Fixture.cfg <> ""
  /\ exists t key decoded,
       extractToken Fixture.cfg (Fixture.request (Some "Bearer k1.other.pem1")) = Some t
       /\ jwt_check Fixture.jwtLib (stripPrefix Fixture.cfg t) key
            (jwtVerifyOptions Fixture.cfg) = inr decoded
       /\ isTenantAllowed Fixture.cfg decoded = inr false.
Proof.
  apply (proj2 (proj2
           (rejection_reasons_truthful Fixture.jwtLib Fixture.jwksLib Fixture.cfg
              Fixture.ignoreRegex (Fixture.request (Some "Bearer k1.other.pem1")) []))).
  vm_compute. auto 10.
Defined.

(** ** More on prefix stripping *)

Lemma drop_length_le (n : nat) (s : string) :
  String.length (JsString.drop n s) <= String.length s.
Proof.
  revert s. induction n as [|n IH]; intros [|c s]; simpl; try lia.
  specialize (IH s). lia.
Qed.


Lemma replace_length_le (s pat : string) :
  String.length (JsString.replace_empty s pat) <= String.length s.
Proof.
  induction s as [|c s IH]; rewrite replace_empty_eq.
  - destruct (String.prefix pat ""); [apply drop_length_le | lia].
  - destruct (String.prefix pat (String c s)); [apply drop_length_le | simpl; lia].
Qed.


Lemma trimStart_length_le (s : string) :
  String.length (JsString.trimStart s) <= String.length s.
Proof.
  induction s as [|c s IH]; simpl; [lia|].
  destruct (JsString.isWhiteSpace c); simpl; lia.
Qed.

Lemma trimStart_head (s : string) :
  match JsString.trimStart s with
  | EmptyString => True
  | String c _ => JsString.isWhiteSpace c = false
  end.
Proof.
  induction s as [|c s IH]; simpl; [exact I|].
  destruct (JsString.isWhiteSpace c) eqn:E; [exact IH | exact E].
Qed.



(** X11: Stripping never makes a token longer. *)
Theorem stripPrefix_never_longer (cfg : Config) (token : string) :
  String.length (stripPrefix cfg token) <= String.length token.
Proof.
  unfold stripPrefix.
  destruct (negb (JsString.eqb (jwtHeaderValuePrefix cfg) "")
            && JsString.startsWith token (jwtHeaderValuePrefix cfg)); [|lia].
  pose proof (trimStart_length_le
                (JsString.replace_empty token (jwtHeaderValuePrefix cfg +:+ " "))).
  pose proof (replace_length_le token (jwtHeaderValuePrefix cfg +:+ " ")).
  lia.
Qed.

(** X12: When the prefix is configured and the token starts with it, what is
    handed on is empty or starts with a code unit that is not white space;
    a token that does not start with the prefix keeps its leading white
    space. *)
Theorem stripPrefix_leading_space (cfg : Config) (token : string) :
  (jwtHeaderValuePrefix cfg <> "" ->
   JsString.startsWith token (jwtHeaderValuePrefix cfg) = true ->
   match stripPrefix cfg token with
   | EmptyString => True
   | String c _ => JsString.isWhiteSpace c = false
   end)
  /\ (JsString.startsWith token (jwtHeaderValuePrefix cfg) = false ->
      stripPrefix cfg token = token).
Proof.
  split.
  - intros Hne Hst. unfold stripPrefix.
    rewrite (eqb_empty_false _ Hne), Hst. simpl. apply trimStart_head.
  - intros Hst. unfold stripPrefix. rewrite Hst. now rewrite andb_false_r.
Qed.

Lemma stripPrefix_leading_space_witness :
  match stripPrefix Fixture.cfg "Bearer   k1.acme.pem1" with
  | EmptyString => True
  | String c _ => JsString.isWhiteSpace c = false
  end.
Proof.
  apply (proj1 (stripPrefix_leading_space Fixture.cfg "Bearer   k1.acme.pem1"));
    [discriminate | reflexivity].
Defined.



Lemma append_nonempty (p s : string) : p <> "" -> p +:+ s <> "".
Proof. destruct p as [|a p]; [congruence | discriminate]. Qed.

(** With a token at hand, [jwt.verify] is called with it, once, and the
    token is not reported missing. *)
Lemma run_with_token
    (jwtLib : Jsonwebtoken) (jwksLib : JwksRsa) (cfg : Config)
    (authIgnoreRegex : string -> bool) (req : Request) (st : Store) (t : string) :
  authIgnoreRegex (url req) = false ->
  extractToken cfg req = Some t ->
  t <> "" ->
  List.filter isVerify (events (middleware jwtLib jwksLib cfg authIgnoreRegex req st))
  = [EvVerify (stripPrefix cfg t) (jwtVerifyOptions cfg)]
  /\ ~ In (EvReject "Missing token")
          (events (middleware jwtLib jwksLib cfg authIgnoreRegex req st)).
Proof.
  intros Hex Htok Hne.
  assert (Hcb : forall o st',
            List.filter isVerify (events (verifyCallback cfg o st')) = []
            /\ ~ In (EvReject "Missing token") (events (verifyCallback cfg o st'))).
  { intros o st'. rewrite verifyCallback_cases.
    destruct o as [m|d].
    - split; [reflexivity|]. intros H. no_such_event H.
    - destruct (isTenantAllowed cfg d) as [e|[|]];
        (split; [reflexivity | intros H; no_such_event H]). }
  destruct (jwt_decode jwtLib (stripPrefix cfg t)) as [m|hdr] eqn:Hd.
  { rewrite (run_decode_failure jwtLib jwksLib cfg authIgnoreRegex req st t Hex Htok Hne m Hd).
    split; [reflexivity|]. intros H. no_such_event H. }
  destruct (kidMissing hdr) eqn:Hk.
  { rewrite (run_no_kid jwtLib jwksLib cfg authIgnoreRegex req st t Hex Htok Hne hdr Hd Hk).
    split; [reflexivity|]. intros H. no_such_event H. }
  destruct (jwks_fetch jwksLib (jwksUri cfg) (default "" (kid hdr))) as [err|key] eqn:Hf.
  - rewrite (run_key_error jwtLib jwksLib cfg authIgnoreRegex req st t
               Hex Htok Hne hdr err Hd Hk Hf).
    unfold after. cbn [events]. rewrite List.filter_app.
    destruct (Hcb (jwt_check jwtLib (stripPrefix cfg t) None (jwtVerifyOptions cfg))
                (st ++ [mkClient (jwksUri cfg) ∅])) as [-> Hno].
    split; [reflexivity|]. intros H. apply in_app_or in H as [H|H]; [|tauto].
    no_such_event H.
  - rewrite (run_key_found jwtLib jwksLib cfg authIgnoreRegex req st t
               Hex Htok Hne hdr key Hd Hk Hf).
    unfold after. cbn [events]. rewrite List.filter_app.
    destruct (Hcb (jwt_check jwtLib (stripPrefix cfg t) (Some (publicKey key))
                     (jwtVerifyOptions cfg))
                (st ++ [mkClient (jwksUri cfg) {[ default "" (kid hdr) := key ]}]))
      as [-> Hno].
    split; [reflexivity|]. intros H. apply in_app_or in H as [H|H]; [|tauto].
    no_such_event H.
Qed.

(** X14: The empty-token test comes before prefix stripping: a header value made
    of the prefix, a space and white space only is stripped to the empty
    string, and that empty string is handed to [jwt.verify] instead of being
    reported as a missing token. *)
Theorem prefix_without_token_is_verified
    (jwtLib : Jsonwebtoken) (jwksLib : JwksRsa) (cfg : Config)
    (authIgnoreRegex : string -> bool) (req : Request) (st : Store) (blank : string) :
  authIgnoreRegex (url req) = false ->
  jwtHeaderValuePrefix cfg <> "" ->
  JsString.allWhiteSpace blank = true ->
  extractToken cfg req = Some (jwtHeaderValuePrefix cfg +:+ " " +:+ blank) ->
  stripPrefix cfg (jwtHeaderValuePrefix cfg +:+ " " +:+ blank) = ""
  /\ List.filter isVerify (events (middleware jwtLib jwksLib cfg authIgnoreRegex req st))
     = [EvVerify "" (jwtVerifyOptions cfg)]
  /\ ~ In (EvReject "Missing token")
          (events (middleware jwtLib jwksLib cfg authIgnoreRegex req st)).
Proof.
  intros Hex Hp Hws Htok.
  assert (E : stripPrefix cfg (jwtHeaderValuePrefix cfg +:+ " " +:+ blank) = "").
  { unfold stripPrefix, JsString.startsWith.
    rewrite (eqb_empty_false _ Hp), prefix_append. simpl.
    rewrite <- append_assoc, replace_empty_leading.
    now apply allWhiteSpace_trimStart. }
  split; [exact E|].
  destruct (run_with_token jwtLib jwksLib cfg authIgnoreRegex req st _ Hex Htok
              (append_nonempty _ _ Hp)) as [H1 H2].
  rewrite E in H1. auto.
Qed.

Lemma prefix_without_token_is_verified_witness :
  stripPrefix Fixture.cfg (jwtHeaderValuePrefix Fixture.cfg +:+ " " +:+ "  ") = ""
  /\ List.filter isVerify (events (Fixture.handle (Some "Bearer   ")))
     = [EvVerify "" (jwtVerifyOptions Fixture.cfg)]
  /\ ~ In (EvReject "Missing token") (events (Fixture.handle (Some "Bearer   "))).
Proof.
  apply (prefix_without_token_is_verified Fixture.jwtLib Fixture.jwksLib Fixture.cfg
           Fixture.ignoreRegex (Fixture.request (Some "Bearer   ")) [] "  ");
    [reflexivity | discriminate | reflexivity | reflexivity].
Defined.

(** ** More on the tenant check *)

Lemma namespaceLoop_throws (cfg : Config) (entries : list (string * JsValue)) (e : Exn) :
  namespaceLoop cfg entries = inl e ->
  e = TypeError
  /\ exists v, In (jwtNamespace cfg, v) entries /\ (v = JNull \/ v = JUndefined).
Proof.
  induction entries as [|[k v] rest IH]; simpl; [discriminate|].
  destruct (JsString.eqb k (jwtNamespace cfg)) eqn:Ek.
  - apply String.eqb_eq in Ek. subst k.
    destruct (Object_entries v) as [e'|inner] eqn:Ev.
    + intros H. inversion H; subst e'.
      destruct v; simpl in Ev; inversion Ev; split; eauto.
    + destruct (tenantLoop cfg inner); [discriminate|].
      intros H. destruct (IH H) as (He & v' & Hin & Hv). split; eauto.
  - intros H. destruct (IH H) as (He & v' & Hin & Hv). split; eauto.
Qed.

Lemma namespaceLoop_null (cfg : Config) (entries : list (string * JsValue)) (v : JsValue) :
  List.NoDup (map fst entries) ->
  In (jwtNamespace cfg, v) entries ->
  v = JNull \/ v = JUndefined ->
  namespaceLoop cfg entries = inl TypeError.
Proof.
  induction entries as [|[k w] rest IH]; simpl; intros Hnd Hin Hv; [contradiction|].
  inversion Hnd as [|? ? Hnotin Hnd']; subst.
  destruct (JsString.eqb k (jwtNamespace cfg)) eqn:Ek.
  - apply String.eqb_eq in Ek. subst k.
    destruct Hin as [Hin|Hin].
    + inversion Hin; subst w. destruct Hv as [->| ->]; reflexivity.
    + exfalso. apply Hnotin. apply in_map_iff. exists (jwtNamespace cfg, v). auto.
  - destruct Hin as [Hin|Hin]; [|now apply IH].
    inversion Hin; subst. unfold JsString.eqb in Ek.
    rewrite String.eqb_refl in Ek. discriminate.
Qed.

(** X15: The tenant check throws, instead of answering, exactly when the three
    values are configured and the claim under the namespace key is null (or
    undefined); what it throws is the TypeError of [Object.entries]. The
    claim names of a decoded object are distinct. *)
Theorem isTenantAllowed_throws_iff (cfg : Config) (claims : list (string * JsValue)) (e : Exn) :
  List.NoDup (map fst claims) ->
  isTenantAllowed cfg (JObj claims) = inl e
  <-> (e = TypeError
       /\ jwtNamespace cfg <> "" /\ jwtAllowedTenantKey cfg <> "" /\ jwtAllowedTenant cfg <> ""
       /\ exists v, In (jwtNamespace cfg, v) claims /\ (v = JNull \/ v = JUndefined)).
Proof.
  intros Hnd. unfold isTenantAllowed, JsString.eqb. split.
  - destruct (String.eqb_spec (jwtNamespace cfg) ""); [discriminate|].
    destruct (String.eqb_spec (jwtAllowedTenantKey cfg) ""); [discriminate|].
    destruct (String.eqb_spec (jwtAllowedTenant cfg) ""); [discriminate|].
    simpl. intros H. apply namespaceLoop_throws in H as (He & Hv). auto.
  - intros (-> & H1 & H2 & H3 & v & Hin & Hv).
    rewrite (proj2 (String.eqb_neq _ _) H1), (proj2 (String.eqb_neq _ _) H2),
            (proj2 (String.eqb_neq _ _) H3).
    simpl. now apply namespaceLoop_null with (v := v).
Qed.

Lemma isTenantAllowed_throws_iff_witness :
  isTenantAllowed Fixture.cfg (JObj [("sub", JStr "u3"); ("org", JNull)]) = inl TypeError
  <-> (TypeError = TypeError
       /\ jwtNamespace Fixture.cfg <> "" /\ jwtAllowedTenantKey Fixture.cfg <> ""
       /\ jwtAllowedTenant Fixture.cfg <> ""
       /\ exists v, In (jwtNamespace Fixture.cfg, v) [("sub", JStr "u3"); ("org", JNull)]
                    /\ (v = JNull \/ v = JUndefined)).
Proof.
  apply isTenantAllowed_throws_iff.
  simpl. repeat constructor; simpl; intuition discriminate.
Defined.

(** X16: The order of the claims in the token does not matter to the tenant
    check, as long as no claim under the namespace key is null. *)
Theorem isTenantAllowed_order (cfg : Config) (claims claims' : list (string * JsValue)) :
  Permutation claims claims' ->
  (forall v, In (jwtNamespace cfg, v) claims -> v <> JNull /\ v <> JUndefined) ->
  isTenantAllowed cfg (JObj claims) = isTenantAllowed cfg (JObj claims').
Proof.
  intros Hp Hnn. unfold isTenantAllowed.
  destruct (JsString.eqb (jwtNamespace cfg) "" || JsString.eqb (jwtAllowedTenantKey cfg) ""
            || JsString.eqb (jwtAllowedTenant cfg) ""); [reflexivity|].
  simpl.
  assert (Hnn' : forall v, In (jwtNamespace cfg, v) claims' -> v <> JNull /\ v <> JUndefined).
  { intros v Hin. apply Hnn. eapply Permutation_in; [symmetry; exact Hp | exact Hin]. }
  destruct (namespaceLoop_total cfg claims Hnn) as (b & -> & Hb).
  destruct (namespaceLoop_total cfg claims' Hnn') as (b' & -> & Hb').
  f_equal.
  assert (Heq : b = true <-> b' = true).
  { rewrite Hb, Hb'. split; intros (v & inner & Hin & Hrest); exists v, inner;
      (split; [|exact Hrest]).
    - eapply Permutation_in; [exact Hp | exact Hin].
    - eapply Permutation_in; [symmetry; exact Hp | exact Hin]. }
  destruct b, b'; try reflexivity; destruct Heq as [H1 H2];
    [specialize (H1 eq_refl) | specialize (H2 eq_refl)]; discriminate.
Qed.

Lemma isTenantAllowed_order_witness :
  isTenantAllowed Fixture.cfg
    (JObj [("sub", JStr "u1"); ("org", JObj [("tenant", JStr "acme")])])
  = isTenantAllowed Fixture.cfg
      (JObj [("org", JObj [("tenant", JStr "acme")]); ("sub", JStr "u1")]).
Proof.
  apply isTenantAllowed_order.
  - apply perm_swap.
  - intros v [H|[H|[]]]; inversion H; split; discriminate.
Defined.

(** ** The key function on its own *)

(** X17: [getKey] with any callback: without a kid in the header it sends the
    rejection and throws, asking the client for nothing and never calling
    back; with a kid whose key the client finds (in its cache, or by a
    download) it calls back exactly once, with no error and the public key;
    with a kid whose lookup fails it calls back with the error and, if that
    call returns, once more with neither error nor key. *)
Theorem getKey_calls_back
    (jwksLib : JwksRsa) (client : nat) (hdr : JwtHeader)
    (callbackFn : option string -> option string -> Js unit) (st : Store) :
  (kidMissing hdr = true ->
     getKey jwksLib client hdr callbackFn st
     = mkRun [EvReject "No JWT key found"] st (inl ThrownByCode))
  /\ (forall k c key,
        kid hdr = Some k -> k <> "" ->
        st !! client = Some c ->
        clientCache c !! k = Some key ->
        getKey jwksLib client hdr callbackFn st
        = after [EvGetSigningKey client k]
            (callbackFn None (Some (publicKey key)) st))
  /\ (forall k c key,
        kid hdr = Some k -> k <> "" ->
        st !! client = Some c ->
        clientCache c !! k = None ->
        jwks_fetch jwksLib (clientUri c) k = inr key ->
        getKey jwksLib client hdr callbackFn st
        = after [EvGetSigningKey client k; EvFetch (clientUri c) k]
            (callbackFn None (Some (publicKey key))
               (<[client := mkClient (clientUri c) (<[k := key]> (clientCache c))]> st)))
  /\ (forall k c err,
        kid hdr = Some k -> k <> "" ->
        st !! client = Some c ->
        clientCache c !! k = None ->
        jwks_fetch jwksLib (clientUri c) k = inl err ->
        getKey jwksLib client hdr callbackFn st
        = after [EvGetSigningKey client k; EvFetch (clientUri c) k]
            ((callbackFn (Some err) None ;; callbackFn None None) st)).
Proof.
  assert (Hm : forall k, kid hdr = Some k -> k <> "" -> kidMissing hdr = false).
  { intros k Hk Hne. unfold kidMissing. rewrite Hk. now rewrite (truthy_nonempty k Hne). }
  split; [|split; [|split]].
  - intros Hk. unfold getKey. rewrite Hk. reflexivity.
  - intros k c key Hkid Hne Hc Hhit. unfold getKey. rewrite (Hm k Hkid Hne), Hkid.
    unfold getSigningKey, bind, emit, getStore. simpl.
    rewrite Hc. simpl. rewrite Hhit. reflexivity.
  - intros k c key Hkid Hne Hc Hmiss Hf. unfold getKey. rewrite (Hm k Hkid Hne), Hkid.
    unfold getSigningKey, bind, emit, getStore, putStore. simpl.
    rewrite Hc. simpl. rewrite Hmiss. simpl. rewrite Hf. reflexivity.
  - intros k c err Hkid Hne Hc Hmiss Hf. unfold getKey. rewrite (Hm k Hkid Hne), Hkid.
    unfold getSigningKey, bind, emit, getStore, putStore. simpl.
    rewrite Hc. simpl. rewrite Hmiss. simpl. rewrite Hf. simpl.
    unfold after.
    destruct (result (callbackFn (Some err) None st)); reflexivity.
Qed.

Lemma getKey_calls_back_witness :
  getKey Fixture.jwksLib 0 (mkHeader (Some "k1")) (fun _ _ => next)
    [mkClient "https://idp.example/jwks.json" {[ "k1" := mkKey "k1" "pem1" ]}]
  = after [EvGetSigningKey 0 "k1"]
      (next [mkClient "https://idp.example/jwks.json" {[ "k1" := mkKey "k1" "pem1" ]}]).
Proof.
  apply (proj1 (proj2 (getKey_calls_back Fixture.jwksLib 0 (mkHeader (Some "k1"))
                         (fun _ _ => next)
                         [mkClient "https://idp.example/jwks.json"
                            {[ "k1" := mkKey "k1" "pem1" ]}]))
           "k1" (mkClient "https://idp.example/jwks.json" {[ "k1" := mkKey "k1" "pem1" ]})
           (mkKey "k1" "pem1"));
    [reflexivity | discriminate | reflexivity | reflexivity].
Defined.

(** ** Cookie mode *)

(** X18: With no header name configured the token is looked for in the cookies
    only: a request without a cookie jar (no cookie parser ran), or whose
    jar lacks the configured cookie, is rejected with "Missing token"
    whatever its headers hold, and nothing else happens. *)
Theorem cookie_mode_without_cookie
    (jwtLib : Jsonwebtoken) (jwksLib : JwksRsa) (cfg : Config)
    (authIgnoreRegex : string -> bool) (req : Request) (st : Store) :
  jwtAuthHeader cfg = "" ->
  authIgnoreRegex (url req) = false ->
  cookies req = None
  \/ (exists jar, cookies req = Some jar /\ jar !! jwtAuthCookie cfg = None) ->
  forall hdrs,
    middleware jwtLib jwksLib cfg authIgnoreRegex
      (mkRequest (url req) hdrs (cookies req)) st
    = mkRun [EvReject "Missing token"] st (inr tt).
Proof.
  intros Hh Hex Hc hdrs. apply run_missing_token; [exact Hex|].
  left. unfold extractToken. rewrite Hh. simpl.
  destruct Hc as [-> | (jar & -> & Hj)]; [reflexivity | exact Hj].
Qed.

Lemma cookie_mode_without_cookie_witness :
  middleware Fixture.jwtLib Fixture.jwksLib
    (mkConfig "" "n8n-jwt" "https://idp.example/jwks.json" "" "" "" "" "")
    Fixture.ignoreRegex
    (mkRequest "/rest/workflows" (fun _ => Some "k1.acme.pem1") None) []
  = mkRun [EvReject "Missing token"] [] (inr tt).
Proof.
  apply (cookie_mode_without_cookie Fixture.jwtLib Fixture.jwksLib
           (mkConfig "" "n8n-jwt" "https://idp.example/jwks.json" "" "" "" "" "")
           Fixture.ignoreRegex (mkRequest "/rest/workflows" (fun _ => None) None) []
           eq_refl eq_refl (or_introl eq_refl) (fun _ => Some "k1.acme.pem1")).
Defined.

(** ** What an installed handler works with *)

Lemma run_uris
    (jwtLib : Jsonwebtoken) (jwksLib : JwksRsa) (cfg : Config)
    (authIgnoreRegex : string -> bool) (req : Request) (st : Store) (uri : string) :
  In (EvJwks uri) (events (middleware jwtLib jwksLib cfg authIgnoreRegex req st))
  \/ (exists k, In (EvFetch uri k)
                  (events (middleware jwtLib jwksLib cfg authIgnoreRegex req st))) ->
  uri = jwksUri cfg.
Proof.
  assert (Hcb : forall o st' e,
            In e (events (verifyCallback cfg o st')) -> isDecision e = true).
  { intros o st' e H. rewrite verifyCallback_cases in H.
    destruct o as [m|d]; [destruct H as [<-|[]]; reflexivity|].
    destruct (isTenantAllowed cfg d) as [x|[|]]; simpl in H;
      try contradiction; destruct H as [<-|[]]; reflexivity. }
  intros H.
  destruct (middleware_shape jwtLib jwksLib cfg authIgnoreRegex req st);
    unfold after in H; cbn [events] in H;
    destruct H as [H|[k' H]];
    try (apply in_app_or in H as [H|H]; [|apply Hcb in H; discriminate H]);
    simpl in H;
    repeat (destruct H as [H|H]; [try discriminate H; now inversion H|]);
    try contradiction.
Qed.

(** X2: Once the set-up has installed a handler, every client that handler
    builds and every download it causes is for the configured key set
    address, which is not empty, and the token is read from a source whose
    name is not empty. *)
Theorem installed_handler_sources
    (jwtLib : Jsonwebtoken) (jwksLib : JwksRsa) (cfg : Config)
    (authIgnoreRegex : string -> bool) (handler : Request -> Js unit)
    (req : Request) (st : Store) :
  setupExternalJWTAuth jwtLib jwksLib cfg authIgnoreRegex = inr handler ->
  (forall uri, In (EvJwks uri) (events (handler req st)) -> uri = jwksUri cfg /\ uri <> "")
  /\ (forall uri k, In (EvFetch uri k) (events (handler req st)) ->
        uri = jwksUri cfg /\ uri <> "")
  /\ ((jwtAuthHeader cfg <> "" /\ extractToken cfg req = header req (jwtAuthHeader cfg))
      \/ (jwtAuthHeader cfg = "" /\ jwtAuthCookie cfg <> ""
          /\ extractToken cfg req = match cookies req with
                                    | None => None
                                    | Some jar => jar !! jwtAuthCookie cfg
                                    end)).
Proof.
  unfold setupExternalJWTAuth, JsString.eqb.
  destruct (String.eqb_spec (jwtAuthHeader cfg) "") as [Eh|Eh];
    destruct (String.eqb_spec (jwtAuthCookie cfg) "") as [Ec|Ec];
    destruct (String.eqb_spec (jwksUri cfg) "") as [Eu|Eu]; simpl;
    try discriminate; intros H; inversion H; subst handler;
    (split; [|split]).
  all: try (intros uri Hin;
            assert (uri = jwksUri cfg) by (eapply run_uris; left; exact Hin);
            split; congruence).
  all: try (intros uri k Hin;
            assert (uri = jwksUri cfg) by (eapply run_uris; right; eexists; exact Hin);
            split; congruence).
  - right. unfold extractToken. rewrite Eh. auto.
  - left. unfold extractToken. rewrite (truthy_nonempty _ Eh). auto.
  - left. unfold extractToken. rewrite (truthy_nonempty _ Eh). auto.
Qed.

Lemma installed_handler_sources_witness :
  (forall uri,
     In (EvJwks uri) (events (Fixture.handle (Some "Bearer k1.acme.pem1"))) ->
     uri = jwksUri Fixture.cfg /\ uri <> "")
  /\ (forall uri k,
        In (EvFetch uri k) (events (Fixture.handle (Some "Bearer k1.acme.pem1"))) ->
        uri = jwksUri Fixture.cfg /\ uri <> "")
  /\ ((jwtAuthHeader Fixture.cfg <> ""
       /\ extractToken Fixture.cfg (Fixture.request (Some "Bearer k1.acme.pem1"))
          = header (Fixture.request (Some "Bearer k1.acme.pem1")) (jwtAuthHeader Fixture.cfg))
      \/ (jwtAuthHeader Fixture.cfg = "" /\ jwtAuthCookie Fixture.cfg <> ""
          /\ extractToken Fixture.cfg (Fixture.request (Some "Bearer k1.acme.pem1"))
             = match cookies (Fixture.request (Some "Bearer k1.acme.pem1")) with
               | None => None
               | Some jar => jar !! jwtAuthCookie Fixture.cfg
               end)).
Proof.
  apply (installed_handler_sources Fixture.jwtLib Fixture.jwksLib Fixture.cfg
           Fixture.ignoreRegex
           (middleware Fixture.jwtLib Fixture.jwksLib Fixture.cfg Fixture.ignoreRegex)
           (Fixture.request (Some "Bearer k1.acme.pem1")) []).
  reflexivity.
Defined.
